(** * Resource mapper of the Anaml Terraform provider

    A shallow embedding of the expand/flatten functions of the provider
    (package [anaml]) and the properties its specification states about them.

    Conventions of the embedding:
    - a Go [interface{}] value is a [value]; a [map[string]interface{}] is a
      [gmap string value], where a missing key reads as the nil interface;
    - a Go pointer field is an [option] ([None] is the nil pointer);
    - a Go [int] is a [Z] (64-bit where its range matters);
    - a function returning [(T, error)] returns an [outcome T]; a failed type
      assertion or nil dereference is the outcome [Crash];
    - the resource handlers mutate a [*schema.ResourceData]: they are written
      in a state-and-error monad over [ResourceData]. *)

From Stdlib Require Import ZArith String Ascii List DecimalString.
From Stdlib Require DecimalPos.
From stdpp Require Import gmap strings list fin_maps.

#[local] Set Warnings "-register-all,-clear-no-such-hyp".
#[local] Open Scope string_scope.
#[local] Open Scope list_scope.

(** ** Dynamic values *)

Inductive value : Type :=
  | VNil
  | VStr (s : string)
  | VBool (b : bool)
  | VInt (n : Z)
  | VPtr (v : value)
  | VList (l : list value)
  | VMap (m : gmap string value).

(** [m[k]] on a Go map: the nil interface when the key is absent. *)
Definition index (m : gmap string value) (k : string) : value :=
  default VNil (m !! k).

(** ** Outcomes of fallible code *)

Inductive outcome (A : Type) : Type :=
  | Ret (a : A)
  | Fail (err : string)
  | Crash.
Arguments Ret {A} a.
Arguments Fail {A} err.
Arguments Crash {A}.

Definition obind {A B} (x : outcome A) (f : A -> outcome B) : outcome B :=
  match x with
  | Ret a => f a
  | Fail e => Fail e
  | Crash => Crash
  end.

Definition omapo {A B} (f : A -> B) (x : outcome A) : outcome B :=
  obind x (fun a => Ret (f a)).

Declare Scope outcome_scope.
Delimit Scope outcome_scope with outcome.
Notation "'let?' x ':=' c 'in' k" := (obind c (fun x => k))
  (at level 10, x name, c at level 100, k at level 200) : outcome_scope.

(** Type assertions [v.(string)], [v.(bool)], [v.([]interface{})] in their
    one-result form: they panic when the dynamic type differs. *)
Definition assertString (v : value) : outcome string :=
  match v with VStr s => Ret s | _ => Crash end.

Definition assertList (v : value) : outcome (list value) :=
  match v with VList l => Ret l | _ => Crash end.

(** [v == s] between an interface value and a string. *)
Definition isString (v : value) (s : string) : bool :=
  match v with VStr s' => String.eqb s' s | _ => false end.

(** The two-result form [x, ok := v.(T)]. *)
Definition tryString (v : value) : option string :=
  match v with VStr s => Some s | _ => None end.

Definition tryBool (v : value) : option bool :=
  match v with VBool b => Some b | _ => None end.

(** ** Roles *)

Module Role.
Record t : Type := mk { Type_ : string }.
End Role.
Abbreviation Role := Role.t.

Definition validRoles : list string :=
  [ "admin_attributes";
    "admin_branch_perms";
    "admin_groups";
    "admin_projects";
    "admin_schedules";
    "admin_system";
    "admin_users";
    "admin_webhooks";
    "author";
    "edit_projects";
    "run_caching";
    "run_event_store";
    "run_featuregen";
    "run_monitoring";
    "super_user";
    "view_reports" ].

Definition mapRolesToBackend (frontend : list string) : list Role :=
  fold_left (fun vs v =>
    if String.eqb v "admin_attributes" then vs ++ [Role.mk "adminattributes"]
    else if String.eqb v "admin_branch_perms" then vs ++ [Role.mk "adminbranchperms"]
    else if String.eqb v "admin_groups" then vs ++ [Role.mk "admingroups"]
    else if String.eqb v "admin_projects" then vs ++ [Role.mk "adminprojects"]
    else if String.eqb v "admin_schedules" then vs ++ [Role.mk "adminschedules"]
    else if String.eqb v "admin_system" then vs ++ [Role.mk "adminsystem"]
    else if String.eqb v "admin_users" then vs ++ [Role.mk "adminusers"]
    else if String.eqb v "admin_webhooks" then vs ++ [Role.mk "adminwebhooks"]
    else if String.eqb v "author" then vs ++ [Role.mk "author"]
    else if String.eqb v "edit_projects" then vs ++ [Role.mk "editprojects"]
    else if String.eqb v "run_caching" then vs ++ [Role.mk "runcaching"]
    else if String.eqb v "run_event_store" then vs ++ [Role.mk "runeventstore"]
    else if String.eqb v "run_featuregen" then vs ++ [Role.mk "runfeaturegen"]
    else if String.eqb v "run_monitoring" then vs ++ [Role.mk "runmonitoring"]
    else if String.eqb v "super_user" then vs ++ [Role.mk "superuser"]
    else if String.eqb v "view_reports" then vs ++ [Role.mk "viewreports"]
    else vs) frontend [].

Definition mapRolesToFrontend (backend : list Role) : list string :=
  fold_left (fun vs v =>
    if String.eqb (Role.Type_ v) "adminattributes" then vs ++ ["admin_attributes"]
    else if String.eqb (Role.Type_ v) "adminbranchperms" then vs ++ ["admin_branch_perms"]
    else if String.eqb (Role.Type_ v) "admingroups" then vs ++ ["admin_groups"]
    else if String.eqb (Role.Type_ v) "adminprojects" then vs ++ ["admin_projects"]
    else if String.eqb (Role.Type_ v) "adminschedules" then vs ++ ["admin_schedules"]
    else if String.eqb (Role.Type_ v) "adminsystem" then vs ++ ["admin_system"]
    else if String.eqb (Role.Type_ v) "adminusers" then vs ++ ["admin_users"]
    else if String.eqb (Role.Type_ v) "adminwebhooks" then vs ++ ["admin_webhooks"]
    else if String.eqb (Role.Type_ v) "author" then vs ++ ["author"]
    else if String.eqb (Role.Type_ v) "editprojects" then vs ++ ["edit_projects"]
    else if String.eqb (Role.Type_ v) "runcaching" then vs ++ ["run_caching"]
    else if String.eqb (Role.Type_ v) "runevent_store" then vs ++ ["run_event_store"]
    else if String.eqb (Role.Type_ v) "runfeaturegen" then vs ++ ["run_featuregen"]
    else if String.eqb (Role.Type_ v) "runmonitoring" then vs ++ ["run_monitoring"]
    else if String.eqb (Role.Type_ v) "superuser" then vs ++ ["super_user"]
    else if String.eqb (Role.Type_ v) "viewreports" then vs ++ ["view_reports"]
    else vs) backend [].

(** The role-name table: each token of the vocabulary with its backend form,
    the same token without its underscores.  These are the rows the branches
    of [mapRolesToBackend] list. *)
Definition roleNameTable : list (string * string) :=
  [ ("admin_attributes", "adminattributes");
    ("admin_branch_perms", "adminbranchperms");
    ("admin_groups", "admingroups");
    ("admin_projects", "adminprojects");
    ("admin_schedules", "adminschedules");
    ("admin_system", "adminsystem");
    ("admin_users", "adminusers");
    ("admin_webhooks", "adminwebhooks");
    ("author", "author");
    ("edit_projects", "editprojects");
    ("run_caching", "runcaching");
    ("run_event_store", "runeventstore");
    ("run_featuregen", "runfeaturegen");
    ("run_monitoring", "runmonitoring");
    ("super_user", "superuser");
    ("view_reports", "viewreports") ].

(** The table read in the other direction, from backend form to token. *)
Definition inverseTable (table : list (string * string)) : list (string * string) :=
  (fun row => (row.2, row.1)) <$> table.

(** The rows the branches of [mapRolesToFrontend] test, in their order.
    They are not [inverseTable roleNameTable]: the row of [run_event_store]
    tests [runevent_store]. *)
Definition frontendBranches : list (string * string) :=
  [ ("adminattributes", "admin_attributes");
    ("adminbranchperms", "admin_branch_perms");
    ("admingroups", "admin_groups");
    ("adminprojects", "admin_projects");
    ("adminschedules", "admin_schedules");
    ("adminsystem", "admin_system");
    ("adminusers", "admin_users");
    ("adminwebhooks", "admin_webhooks");
    ("author", "author");
    ("editprojects", "edit_projects");
    ("runcaching", "run_caching");
    ("runevent_store", "run_event_store");
    ("runfeaturegen", "run_featuregen");
    ("runmonitoring", "run_monitoring");
    ("superuser", "super_user");
    ("viewreports", "view_reports") ].

(** Image of a token under a table: the first row whose key is the token. *)
Fixpoint tableImage (table : list (string * string)) (token : string) : option string :=
  match table with
  | [] => None
  | (k, v) :: rest => if String.eqb token k then Some v else tableImage rest token
  end.

Definition recognised (table : list (string * string)) (token : string) : Prop :=
  token ∈ table.*1.

(** ** Decimal conversions of the Go standard library

    [strconv.Atoi] and [strconv.Itoa] for a 64-bit [int].  [Atoi] is given by
    [ParseInt(s, 10, 0)], with which its fast path for short inputs agrees.
    Each function returns its value together with the error, as in Go. *)

Inductive numError : Type := ErrSyntax | ErrRange.

Definition isDigit (c : ascii) : bool :=
  (48 <=? nat_of_ascii c)%nat && (nat_of_ascii c <=? 57)%nat.

Definition digitValue (c : ascii) : Z := Z.of_nat (nat_of_ascii c) - 48.

Definition maxUint64 : Z := 2 ^ 64 - 1.
Definition maxInt : Z := 2 ^ 63 - 1.
Definition minInt : Z := - 2 ^ 63.

(** The digit loop of [ParseUint]: it stops at the first byte that is not a
    digit, and at the first digit that takes the value past 64 bits. *)
Fixpoint parseUintLoop (s : string) (n : Z) : Z * option numError :=
  match s with
  | EmptyString => (n, None)
  | String c rest =>
      if isDigit c then
        if (maxUint64 / 10 + 1 <=? n)%Z then (maxUint64, Some ErrRange)
        else
          let n1 := (n * 10 + digitValue c)%Z in
          if (maxUint64 <? n1)%Z then (maxUint64, Some ErrRange)
          else parseUintLoop rest n1
      else (0%Z, Some ErrSyntax)
  end.

Definition ParseUint (s : string) : Z * option numError :=
  match s with
  | EmptyString => (0%Z, Some ErrSyntax)
  | _ => parseUintLoop s 0
  end.

Definition ParseInt (s : string) : Z * option numError :=
  match s with
  | EmptyString => (0%Z, Some ErrSyntax)
  | String c rest =>
      let neg := Ascii.eqb c "-" in
      let digits := if Ascii.eqb c "+" || Ascii.eqb c "-" then rest else s in
      match ParseUint digits with
      | (_, Some ErrSyntax) => (0%Z, Some ErrSyntax)
      | (un, _) =>
          if negb neg && (2 ^ 63 <=? un)%Z then (maxInt, Some ErrRange)
          else if neg && (2 ^ 63 <? un)%Z then (minInt, Some ErrRange)
          else ((if neg then - un else un)%Z, None)
      end
  end.

Definition Atoi (s : string) : Z * option numError := ParseInt s.

Definition Itoa (i : Z) : string := NilZero.string_of_int (Z.to_int i).

(** ** structure.go *)

Definition expandStringList (configured : list value) : list string :=
  fold_left (fun vs v =>
    match tryString v with
    | Some val => if negb (String.eqb val "") then vs ++ [val] else vs
    | None => vs
    end) configured [].

Definition expandIdentifierList (configured : list value) : list Z :=
  fold_left (fun vs v =>
    match tryString v with
    | Some val =>
        if negb (String.eqb val "") then
          let '(vv, _) := Atoi val in vs ++ [vv]
        else vs
    | None => vs
    end) configured [].

(** The two formatted messages are given without the value they print. *)
Definition expandSingleMap (v : value) : outcome (gmap string value) :=
  match v with
  | VNil => Fail "Value is null"
  | VList array =>
      match array with
      | [] => Fail "Array is empty"
      | VMap single :: _ => Ret single
      | _ :: _ => Fail "Value at index 0 of array is not a map"
      end
  | _ => Fail "Value is not an array"
  end.

Definition identifierList (ints : list Z) : list string :=
  fold_left (fun vs v => vs ++ [Itoa v]) ints [].

(** ** Wire records *)

Module Attribute.
Record t : Type := mk { Key : string; Value : string }.
End Attribute.
Abbreviation Attribute := Attribute.t.

Module Entity.
Record t : Type := mk {
  ID : Z;
  Name : string;
  Description : string;
  Type_ : string;
  DefaultColumn : option string;
  RequiredType : option value;
  Entities : option (list Z);
  Labels : list string;
  Attributes : list Attribute }.
End Entity.
Abbreviation Entity := Entity.t.

Module FileFormat.
Record t : Type := mk {
  Type_ : string;
  Sep : option string;
  QuoteAll : option bool;
  IncludeHeader : option bool;
  EmptyValue : option string;
  Compression : option string;
  DateFormat : option string;
  TimestampFormat : option string;
  IgnoreLeadingWhiteSpace : option bool;
  IgnoreTrailingWhiteSpace : option bool;
  LineSep : option string }.
End FileFormat.
Abbreviation FileFormat := FileFormat.t.

Module LoginCredentialsProviderConfig.
Record t : Type := mk {
  Type_ : string;
  Username : string;
  Password : string;
  FilePath : string;
  PasswordSecretProject : string;
  PasswordSecretId : string }.
End LoginCredentialsProviderConfig.
Abbreviation LoginCredentialsProviderConfig := LoginCredentialsProviderConfig.t.

Module SecretValueConfig.
Record t : Type := mk {
  Type_ : string;
  Secret : string;
  FilePath : string;
  SecretProject : string;
  SecretId : string }.
End SecretValueConfig.
Abbreviation SecretValueConfig := SecretValueConfig.t.

Module SensitiveAttribute.
Record t : Type := mk { Key : string; ValueConfig : option SecretValueConfig }.
End SensitiveAttribute.
Abbreviation SensitiveAttribute := SensitiveAttribute.t.

Module PrincipalId.
Record t : Type := mk { ID : Z; Type_ : string }.
End PrincipalId.
Abbreviation PrincipalId := PrincipalId.t.

Module MaskingRule.
Record t : Type := mk { Type_ : string; Expression : string; Column : string }.
End MaskingRule.
Abbreviation MaskingRule := MaskingRule.t.

Module AccessRule.
Record t : Type := mk {
  Resource : string;
  Principals : list PrincipalId;
  MaskingRules : list MaskingRule }.
End AccessRule.
Abbreviation AccessRule := AccessRule.t.

Module Source.
Record t : Type := mk {
  ID : Z;
  Name : string;
  Description : string;
  Type_ : string;
  Bucket : string;
  Path : string;
  FileFormat : option FileFormat.t;
  Endpoint : string;
  AccessKey : string;
  SecretKey : string;
  URL : string;
  Schema : string;
  CredentialsProvider : option LoginCredentialsProviderConfig.t;
  Database : string;
  BootstrapServers : string;
  SchemaRegistryURL : string;
  KafkaProperties : list SensitiveAttribute;
  Labels : list string;
  Attributes : list Attribute;
  Warehouse : string;
  AccessRules : list AccessRule }.
End Source.
Abbreviation Source := Source.t.

Module SparkConfig.
Record t : Type := mk {
  EnableHiveSupport : bool;
  HiveMetastoreURL : string;
  AdditionalSparkProperties : gmap string string }.
End SparkConfig.
Abbreviation SparkConfig := SparkConfig.t.

Module PropertySet.
Record t : Type := mk {
  ID : option Z;
  Name : string;
  AdditionalSparkProperties : gmap string string }.
End PropertySet.
Abbreviation PropertySet := PropertySet.t.

Module Cluster.
Record t : Type := mk {
  ID : Z;
  Name : string;
  Description : string;
  Type_ : string;
  IsPreviewCluster : bool;
  AnamlServerURL : string;
  SparkServerURL : string;
  CredentialsProvider : option LoginCredentialsProviderConfig.t;
  SparkConfig : option SparkConfig.t;
  PropertySet : list PropertySet.t;
  Labels : list string;
  Attributes : list Attribute }.
End Cluster.
Abbreviation Cluster := Cluster.t.

(** ** Resource data of the plugin host

    [schema.ResourceData] holds the resource id and the attribute values.
    [Get] reads an attribute as an [interface{}]; [GetString] and [GetList]
    stand for [d.Get(k).(string)] and [d.Get(k).([]interface{})] on an
    attribute the schema declares as a string or a list: the host returns the
    zero value of the declared type when the attribute is unset, and the
    string pointed at when a string pointer was written.

    [Get] hands back a nested block as it is stored.  The host stores and
    delivers a configured block as a map that holds every key of the block's
    schema, with the configured value or, for a key left out, the zero value
    of the key's type; [delivered] builds that map from the keys a
    configuration writes. *)

Record ResourceData : Type := mkResourceData {
  Id : string;
  attrs : gmap string value }.

Definition Get (d : ResourceData) (k : string) : value := index (attrs d) k.

Definition GetString (d : ResourceData) (k : string) : string :=
  match attrs d !! k with
  | Some (VStr s) => s
  | Some (VPtr (VStr s)) => s
  | _ => ""
  end.

Definition GetList (d : ResourceData) (k : string) : list value :=
  match attrs d !! k with
  | Some (VList l) => l
  | _ => []
  end.

(** [d.GetOk(k)] on a string attribute: the value, and whether it is set to
    something other than the zero value. *)
Definition GetOk (d : ResourceData) (k : string) : value * bool :=
  let s := GetString d k in (VStr s, negb (String.eqb s "")).

(** The types of the keys of a block schema, and their zero values. *)
Inductive schemaType : Type := TypeString | TypeBool | TypeList.

Definition zeroValue (t : schemaType) : value :=
  match t with
  | TypeString => VStr ""
  | TypeBool => VBool false
  | TypeList => VList []
  end.

Definition hasType (t : schemaType) (v : value) : bool :=
  match t, v with
  | TypeString, VStr _ | TypeBool, VBool _ | TypeList, VList _ => true
  | _, _ => false
  end.

(** The block the host delivers for the configured keys of a block. *)
Definition delivered (schema : list (string * schemaType))
    (configured : gmap string value) : gmap string value :=
  foldr (fun '(k, t) block => <[k := default (zeroValue t) (configured !! k)]> block)
    ∅ schema.

(** The host accepts a configured block when each key it writes holds a value
    of the type the schema declares. *)
Definition wellTyped (schema : list (string * schemaType))
    (configured : gmap string value) : Prop :=
  Forall (fun '(k, t) =>
    forall v, configured !! k = Some v -> hasType t v = true) schema.

(** The host decides whether [d.Set(k, v)] is accepted. *)
Class PluginSdk : Type := { setError : string -> value -> option string }.

(** Handlers: state over [ResourceData], with errors. *)
Definition handler (A : Type) : Type := ResourceData -> ResourceData * outcome A.

Definition hret {A} (a : A) : handler A := fun d => (d, Ret a).

Definition hbind {A B} (m : handler A) (f : A -> handler B) : handler B :=
  fun d =>
    match m d with
    | (d', Ret a) => f a d'
    | (d', Fail e) => (d', Fail e)
    | (d', Crash) => (d', Crash)
    end.

Definition hfail {A} (e : string) : handler A := fun d => (d, Fail e).

Definition hlift {A} (o : outcome A) : handler A := fun d => (d, o).

Definition hread {A} (f : ResourceData -> A) : handler A := fun d => (d, Ret (f d)).

Declare Scope handler_scope.
Delimit Scope handler_scope with handler.
Notation "x <- c ;; k" := (hbind c (fun x => k))
  (at level 100, c at next level, right associativity) : handler_scope.
Notation "c ;; k" := (hbind c (fun _ => k))
  (at level 100, right associativity) : handler_scope.

Definition SetId (id : string) : handler unit :=
  fun d => (mkResourceData id (attrs d), Ret tt).

Definition Set_ `{PluginSdk} (k : string) (v : value) : handler unit :=
  fun d =>
    match setError k v with
    | Some e => (d, Fail e)
    | None => (mkResourceData (Id d) (<[k := v]> (attrs d)), Ret tt)
    end.

(** ** The API client *)

Module Client.
Record t : Type := mk {
  GetEntity : string -> option Entity * option string;
  GetSource : string -> option Source * option string;
  FindCluster : string -> option Cluster * option string }.
End Client.
Abbreviation Client := Client.t.

(** ** Functions of the package defined in other files *)

Class Helpers : Type := {
  expandLabels : ResourceData -> list string;
  expandAttributes : ResourceData -> list Attribute;
  flattenAttributes : list Attribute -> value;
  expandPrincipalIds : list value -> outcome (list PrincipalId);
  flattenPrincipalIds : list PrincipalId -> value;
  composeLoginCredentialsProviderConfig :
    gmap string value -> outcome (option LoginCredentialsProviderConfig);
  parseLoginCredentialsProviderConfig :
    option LoginCredentialsProviderConfig -> outcome (gmap string value);
  composeSensitiveAttribute : gmap string value -> outcome (option SensitiveAttribute);
  parseSensitiveAttribute : SensitiveAttribute -> outcome (gmap string value) }.

Definition strings (l : list string) : value := VList (VStr <$> l).
Definition maps (l : list (gmap string value)) : value := VList (VMap <$> l).

(** Optional wire fields as they are stored in a map: the pointer, or nil. *)
Definition stringPtr (p : option string) : value :=
  match p with Some s => VPtr (VStr s) | None => VNil end.
Definition boolPtr (p : option bool) : value :=
  match p with Some b => VPtr (VBool b) | None => VNil end.

(** Loops over a slice whose body may return early with an error. *)
Fixpoint forEach {A B} (body : A -> B -> outcome A) (l : list B) (acc : A) : outcome A :=
  match l with
  | [] => Ret acc
  | x :: rest => obind (body acc x) (forEach body rest)
  end.

Fixpoint traverse {A B} (f : A -> outcome B) (l : list A) : outcome (list B) :=
  match l with
  | [] => Ret []
  | x :: rest =>
      obind (f x) (fun y => obind (traverse f rest) (fun ys => Ret (y :: ys)))
  end.

(** [val, _ := v.(map[string]interface{})]: the nil map, which reads as
    empty, when [v] is not a map. *)
Definition mapOrNil (v : value) : gmap string value :=
  match v with VMap m => m | _ => ∅ end.

(** [x, _ := f(...)]: the error is discarded, [x] is nil when there is one. *)
Definition dropError {A} (o : outcome A) : option A :=
  match o with Ret a => Some a | _ => None end.

(** An [if] without [else] around statements. *)
Definition when (b : bool) (h : handler unit) : handler unit :=
  if b then h else hret tt.

Section Provider.
Context `{PluginSdk} `{Helpers}.
#[local] Open Scope handler_scope.
#[local] Open Scope outcome_scope.

(** *** resource_entity.go *)

Definition resourceEntityRead (c : Client) : handler unit :=
  entityID <- hread Id ;;
  let '(entity, err) := Client.GetEntity c entityID in
  match err, entity with
  | Some e, _ => hfail e
  | None, None => SetId "" ;; hret tt
  | None, Some entity =>
      Set_ "name" (VStr (Entity.Name entity)) ;;
      Set_ "description" (VStr (Entity.Description entity)) ;;
      match Entity.DefaultColumn entity with
      | Some defaultColumn =>
          Set_ "default_column" (VPtr (VStr defaultColumn)) ;;
          match Entity.RequiredType entity with
          | Some derefed =>
              match tryString derefed with
              | Some requiredTypeString => Set_ "required_type" (VStr requiredTypeString)
              | None => Set_ "required_type" (VStr "Complex Type")
              end
          | None => Set_ "required_type" VNil
          end ;;
          Set_ "entities" VNil
      | None => hret tt
      end ;;
      match Entity.Entities entity with
      | Some entities =>
          Set_ "default_column" VNil ;;
          Set_ "required_type" VNil ;;
          Set_ "entities" (strings (identifierList entities))
      | None => hret tt
      end ;;
      Set_ "labels" (strings (Entity.Labels entity)) ;;
      Set_ "attribute" (flattenAttributes (Entity.Attributes entity)) ;;
      hret tt
  end.

Definition buildEntity (d : ResourceData) : Entity :=
  let default_column := GetString d "default_column" in
  if negb (String.eqb default_column "") then
    {| Entity.ID := 0;
       Entity.Name := GetString d "name";
       Entity.Description := GetString d "description";
       Entity.Type_ := "base";
       Entity.DefaultColumn := Some default_column;
       Entity.RequiredType :=
         (let '(required_type, set) := GetOk d "required_type" in
          if set then Some required_type else None);
       Entity.Entities := None;
       Entity.Labels := expandLabels d;
       Entity.Attributes := expandAttributes d |}
  else
    let entities := expandIdentifierList (GetList d "entities") in
    {| Entity.ID := 0;
       Entity.Name := GetString d "name";
       Entity.Description := GetString d "description";
       Entity.Type_ := "composite";
       Entity.DefaultColumn := None;
       Entity.RequiredType := None;
       Entity.Entities := Some entities;
       Entity.Labels := expandLabels d;
       Entity.Attributes := expandAttributes d |}.

(** *** The cluster data source *)

Definition dataSourceClusterRead (c : Client) : handler unit :=
  name <- hread (fun d => GetString d "name") ;;
  let '(cluster, err) := Client.FindCluster c name in
  match err, cluster with
  | Some e, _ => hfail e
  | None, None => SetId "" ;; hret tt
  | None, Some cluster =>
      SetId (Itoa (Cluster.ID cluster)) ;;
      Set_ "name" (VStr (Cluster.Name cluster)) ;;
      Set_ "description" (VStr (Cluster.Description cluster)) ;;
      hret tt
  end.

(** *** resource_source.go: block schemas

    The keys and types of the blocks [s3SourceDestinationSchema],
    [hiveSourceDestinationSchema] and [kafkaSourceDestinationSchema]
    declare. *)

Definition s3SourceDestinationSchema : list (string * schemaType) :=
  [("bucket", TypeString); ("path", TypeString); ("file_format", TypeString);
   ("field_separator", TypeString); ("quote_all", TypeBool);
   ("include_header", TypeBool); ("empty_value", TypeString);
   ("ignore_leading_whitespace", TypeBool); ("ignore_trailing_whitespace", TypeBool);
   ("compression", TypeString); ("date_format", TypeString);
   ("timestamp_format", TypeString); ("line_separator", TypeString)].

Definition hiveSourceDestinationSchema : list (string * schemaType) :=
  [("database", TypeString)].

Definition kafkaSourceDestinationSchema : list (string * schemaType) :=
  [("bootstrap_servers", TypeString); ("schema_registry_url", TypeString);
   ("property", TypeList)].

(** *** resource_source.go: flattening *)

Definition parseFileFormat (fileFormat : option FileFormat) : outcome (gmap string value) :=
  match fileFormat with
  | None => Crash
  | Some fileFormat =>
      let fileFormatMap : gmap string value :=
        <["file_format" := VStr (FileFormat.Type_ fileFormat)]> ∅ in
      if String.eqb (FileFormat.Type_ fileFormat) "csv" then
        Ret (<["line_separator" := stringPtr (FileFormat.LineSep fileFormat)]>
            (<["timestamp_format" := stringPtr (FileFormat.TimestampFormat fileFormat)]>
            (<["quote_all" := boolPtr (FileFormat.QuoteAll fileFormat)]>
            (<["include_header" := boolPtr (FileFormat.IncludeHeader fileFormat)]>
            (<["ignore_trailing_whitespace" :=
                 boolPtr (FileFormat.IgnoreTrailingWhiteSpace fileFormat)]>
            (<["ignore_leading_whitespace" :=
                 boolPtr (FileFormat.IgnoreLeadingWhiteSpace fileFormat)]>
            (<["field_separator" := stringPtr (FileFormat.Sep fileFormat)]>
            (<["empty_value" := stringPtr (FileFormat.EmptyValue fileFormat)]>
            (<["date_format" := stringPtr (FileFormat.DateFormat fileFormat)]>
            (<["compression" := stringPtr (FileFormat.Compression fileFormat)]>
             fileFormatMap))))))))))
      else Ret fileFormatMap
  end.

(** Used for both S3 and GCS sources. *)
Definition parseS3Source (source : option Source) : outcome (list (gmap string value)) :=
  match source with
  | None => Fail "Source is null"
  | Some source =>
      let s3 : gmap string value :=
        <["path" := VStr (Source.Path source)]>
        (<["bucket" := VStr (Source.Bucket source)]> ∅) in
      let? fileFormat := parseFileFormat (Source.FileFormat source) in
      Ret [fileFormat ∪ s3]
  end.

Definition parseS3ASource (source : option Source) : outcome (list (gmap string value)) :=
  match source with
  | None => Fail "Source is null"
  | Some source =>
      let s3a : gmap string value :=
        <["secret_key" := VStr (Source.SecretKey source)]>
        (<["access_key" := VStr (Source.AccessKey source)]>
        (<["endpoint" := VStr (Source.Endpoint source)]>
        (<["path" := VStr (Source.Path source)]>
        (<["bucket" := VStr (Source.Bucket source)]> ∅)))) in
      let? fileFormat := parseFileFormat (Source.FileFormat source) in
      Ret [fileFormat ∪ s3a]
  end.

(** Used for local and HDFS sources. *)
Definition parseLocalSource (source : option Source) : outcome (list (gmap string value)) :=
  match source with
  | None => Fail "Source is null"
  | Some source =>
      let local : gmap string value := <["path" := VStr (Source.Path source)]> ∅ in
      let? fileFormat := parseFileFormat (Source.FileFormat source) in
      Ret [fileFormat ∪ local]
  end.

Definition parseJDBCSource (source : option Source) : outcome (list (gmap string value)) :=
  match source with
  | None => Fail "Source is null"
  | Some source =>
      let jdbc : gmap string value :=
        <["schema" := VStr (Source.Schema source)]>
        (<["url" := VStr (Source.URL source)]> ∅) in
      let? credentialsProvider :=
        parseLoginCredentialsProviderConfig (Source.CredentialsProvider source) in
      Ret [<["credentials_provider" := maps [credentialsProvider]]> jdbc]
  end.

Definition parseBigQuerySource (source : option Source) : outcome (list (gmap string value)) :=
  match source with
  | None => Fail "Source is null"
  | Some source => Ret [<["path" := VStr (Source.Path source)]> ∅]
  end.

Definition parseHiveSource (source : option Source) : outcome (list (gmap string value)) :=
  match source with
  | None => Fail "Source is null"
  | Some source => Ret [<["database" := VStr (Source.Database source)]> ∅]
  end.

Definition parseKafkaSource (source : option Source) : outcome (list (gmap string value)) :=
  match source with
  | None => Fail "Source is null"
  | Some source =>
      let kafka : gmap string value :=
        <["schema_registry_url" := VStr (Source.SchemaRegistryURL source)]>
        (<["bootstrap_servers" := VStr (Source.BootstrapServers source)]> ∅) in
      let? sensitives := traverse parseSensitiveAttribute (Source.KafkaProperties source) in
      Ret [<["property" := maps sensitives]> kafka]
  end.

Definition parseSnowflakeSource (source : option Source) : outcome (list (gmap string value)) :=
  match source with
  | None => Fail "Source is null"
  | Some source =>
      let snowflake : gmap string value :=
        <["schema" := VStr (Source.Schema source)]>
        (<["database" := VStr (Source.Database source)]>
        (<["warehouse" := VStr (Source.Warehouse source)]>
        (<["url" := VStr (Source.URL source)]> ∅))) in
      let? credentialsProvider :=
        parseLoginCredentialsProviderConfig (Source.CredentialsProvider source) in
      Ret [<["credentials_provider" := maps [credentialsProvider]]> snowflake]
  end.

Definition flatternMaskingRules (maskingRules : list MaskingRule) : value :=
  maps (fold_left (fun res maskingRule =>
    let single : gmap string value := ∅ in
    let single :=
      if String.eqb (MaskingRule.Type_ maskingRule) "filter" then
        <["filter" :=
            maps [<["expression" := VStr (MaskingRule.Expression maskingRule)]> ∅]]> single
      else single in
    let single :=
      if String.eqb (MaskingRule.Type_ maskingRule) "mask" then
        <["mask" :=
            maps [<["expression" := VStr (MaskingRule.Expression maskingRule)]>
                 (<["column" := VStr (MaskingRule.Column maskingRule)]> ∅)]]> single
      else single in
    res ++ [single]) maskingRules []).

Definition flattenAccessRules (accessRules : list AccessRule) : value :=
  maps (fold_left (fun res accessRule =>
    res ++ [<["masking_rule" := flatternMaskingRules (AccessRule.MaskingRules accessRule)]>
           (<["principals" := flattenPrincipalIds (AccessRule.Principals accessRule)]>
           (<["resource" := VStr (AccessRule.Resource accessRule)]> ∅))]) accessRules []).

Definition resourceSourceRead (c : Client) : handler unit :=
  sourceID <- hread Id ;;
  let '(source, err) := Client.GetSource c sourceID in
  match err, source with
  | Some e, _ => hfail e
  | None, None => SetId "" ;; hret tt
  | None, Some source =>
      Set_ "name" (VStr (Source.Name source)) ;;
      Set_ "description" (VStr (Source.Description source)) ;;
      when (String.eqb (Source.Type_ source) "s3")
        (s3 <- hlift (parseS3Source (Some source)) ;; Set_ "s3" (maps s3)) ;;
      when (String.eqb (Source.Type_ source) "s3a")
        (s3a <- hlift (parseS3ASource (Some source)) ;; Set_ "s3a" (maps s3a)) ;;
      when (String.eqb (Source.Type_ source) "gcs")
        (gcs <- hlift (parseS3Source (Some source)) ;; Set_ "gcs" (maps gcs)) ;;
      when (String.eqb (Source.Type_ source) "local")
        (local <- hlift (parseLocalSource (Some source)) ;; Set_ "local" (maps local)) ;;
      when (String.eqb (Source.Type_ source) "hdfs")
        (hdfs <- hlift (parseLocalSource (Some source)) ;; Set_ "hdfs" (maps hdfs)) ;;
      when (String.eqb (Source.Type_ source) "jdbc")
        (jdbc <- hlift (parseJDBCSource (Some source)) ;; Set_ "jdbc" (maps jdbc)) ;;
      when (String.eqb (Source.Type_ source) "hive")
        (hive <- hlift (parseHiveSource (Some source)) ;; Set_ "hive" (maps hive)) ;;
      when (String.eqb (Source.Type_ source) "bigquery")
        (bigQuery <- hlift (parseBigQuerySource (Some source)) ;;
         Set_ "big_query" (maps bigQuery)) ;;
      when (String.eqb (Source.Type_ source) "kafka")
        (kafka <- hlift (parseKafkaSource (Some source)) ;; Set_ "kafka" (maps kafka)) ;;
      when (String.eqb (Source.Type_ source) "snowflake")
        (snowflake <- hlift (parseSnowflakeSource (Some source)) ;;
         Set_ "snowflake" (maps snowflake)) ;;
      Set_ "labels" (strings (Source.Labels source)) ;;
      Set_ "attribute" (flattenAttributes (Source.Attributes source)) ;;
      Set_ "access_rule" (flattenAccessRules (Source.AccessRules source)) ;;
      hret tt
  end.

(** *** resource_source.go: composition *)

Definition composeFileFormat (d : gmap string value) : outcome FileFormat :=
  let? type_ := assertString (index d "file_format") in
  if isString (index d "file_format") "csv" then
      Ret {| FileFormat.Type_ := type_;
             FileFormat.Sep := tryString (index d "field_separator");
             FileFormat.QuoteAll := tryBool (index d "quote_all");
             FileFormat.IncludeHeader := tryBool (index d "include_header");
             FileFormat.EmptyValue := tryString (index d "empty_value");
             FileFormat.Compression := tryString (index d "compression");
             FileFormat.DateFormat := tryString (index d "date_format");
             FileFormat.TimestampFormat := tryString (index d "timestamp_format");
             FileFormat.IgnoreLeadingWhiteSpace :=
               tryBool (index d "ignore_leading_whitespace");
             FileFormat.IgnoreTrailingWhiteSpace :=
               tryBool (index d "ignore_trailing_whitespace");
             FileFormat.LineSep := tryString (index d "line_separator") |}
  else
      Ret {| FileFormat.Type_ := type_;
             FileFormat.Sep := None;
             FileFormat.QuoteAll := None;
             FileFormat.IncludeHeader := None;
             FileFormat.EmptyValue := None;
             FileFormat.Compression := None;
             FileFormat.DateFormat := None;
             FileFormat.TimestampFormat := None;
             FileFormat.IgnoreLeadingWhiteSpace := None;
             FileFormat.IgnoreTrailingWhiteSpace := None;
             FileFormat.LineSep := None |}.

Definition composeFilterMaskingRule (d : gmap string value) : outcome MaskingRule :=
  let? expression := assertString (index d "expression") in
  Ret {| MaskingRule.Type_ := "filter";
         MaskingRule.Expression := expression;
         MaskingRule.Column := "" |}.

Definition composeMaskMaskingRule (d : gmap string value) : outcome MaskingRule :=
  let? column := assertString (index d "column") in
  let? expression := assertString (index d "expression") in
  Ret {| MaskingRule.Type_ := "mask";
         MaskingRule.Expression := expression;
         MaskingRule.Column := column |}.

Definition expandMaskingRules (maskingRules : list value) : outcome (list MaskingRule) :=
  forEach (fun res maskingRule =>
    let val := mapOrNil maskingRule in
    let? res :=
      match dropError (expandSingleMap (index val "filter")) with
      | Some filterMaskingRule =>
          let? parsed := composeFilterMaskingRule filterMaskingRule in
          Ret (res ++ [parsed])
      | None => Ret res
      end in
    match dropError (expandSingleMap (index val "mask")) with
    | Some maskMaskingRule =>
        let? parsed := composeMaskMaskingRule maskMaskingRule in
        Ret (res ++ [parsed])
    | None => Ret res
    end) maskingRules [].

Definition expandAccessRules (accessRules : list value) : outcome (list AccessRule) :=
  forEach (fun res accessRule =>
    let val := mapOrNil accessRule in
    let? principalValues := assertList (index val "principals") in
    let? principals := expandPrincipalIds principalValues in
    let? maskingRuleValues := assertList (index val "masking_rule") in
    let? maskingRules := expandMaskingRules maskingRuleValues in
    let? resource := assertString (index val "resource") in
    Ret (res ++ [{| AccessRule.Resource := resource;
                    AccessRule.Principals := principals;
                    AccessRule.MaskingRules := maskingRules |}])) accessRules [].

(** The two formatted messages of the Kafka branch are given without the
    value they print: the source appends [. Value: ] and the offending value
    to [Kafka Properties Value is not an array] and to
    [Kafka Properties Value is not a map interfaces]. *)
Definition composeSource (d : ResourceData) : outcome Source :=
  let? accessRules := expandAccessRules (GetList d "access_rule") in
  match dropError (expandSingleMap (Get d "s3")) with
  | Some s3 =>
      let? fileFormat := composeFileFormat s3 in
      let? bucket := assertString (index s3 "bucket") in
      let? path := assertString (index s3 "path") in
      Ret {| Source.ID := 0;
             Source.Name := GetString d "name";
             Source.Description := GetString d "description";
             Source.Type_ := "s3";
             Source.Bucket := bucket;
             Source.Path := path;
             Source.FileFormat := Some fileFormat;
             Source.Endpoint := "";
             Source.AccessKey := "";
             Source.SecretKey := "";
             Source.URL := "";
             Source.Schema := "";
             Source.CredentialsProvider := None;
             Source.Database := "";
             Source.BootstrapServers := "";
             Source.SchemaRegistryURL := "";
             Source.KafkaProperties := [];
             Source.Labels := expandLabels d;
             Source.Attributes := expandAttributes d;
             Source.Warehouse := "";
             Source.AccessRules := accessRules |}
  | None =>
  match dropError (expandSingleMap (Get d "s3a")) with
  | Some s3a =>
      let? fileFormat := composeFileFormat s3a in
      let? bucket := assertString (index s3a "bucket") in
      let? path := assertString (index s3a "path") in
      let? endpoint := assertString (index s3a "endpoint") in
      let? accessKey := assertString (index s3a "access_key") in
      let? secretKey := assertString (index s3a "secret_key") in
      Ret {| Source.ID := 0;
             Source.Name := GetString d "name";
             Source.Description := GetString d "description";
             Source.Type_ := "s3a";
             Source.Bucket := bucket;
             Source.Path := path;
             Source.FileFormat := Some fileFormat;
             Source.Endpoint := endpoint;
             Source.AccessKey := accessKey;
             Source.SecretKey := secretKey;
             Source.URL := "";
             Source.Schema := "";
             Source.CredentialsProvider := None;
             Source.Database := "";
             Source.BootstrapServers := "";
             Source.SchemaRegistryURL := "";
             Source.KafkaProperties := [];
             Source.Labels := expandLabels d;
             Source.Attributes := expandAttributes d;
             Source.Warehouse := "";
             Source.AccessRules := accessRules |}
  | None =>
  match dropError (expandSingleMap (Get d "jdbc")) with
  | Some jdbc =>
      let? credentialsProviderMap :=
        expandSingleMap (index jdbc "credentials_provider") in
      let? credentialsProvider :=
        composeLoginCredentialsProviderConfig credentialsProviderMap in
      let? url := assertString (index jdbc "url") in
      let? schema := assertString (index jdbc "schema") in
      Ret {| Source.ID := 0;
             Source.Name := GetString d "name";
             Source.Description := GetString d "description";
             Source.Type_ := "jdbc";
             Source.Bucket := "";
             Source.Path := "";
             Source.FileFormat := None;
             Source.Endpoint := "";
             Source.AccessKey := "";
             Source.SecretKey := "";
             Source.URL := url;
             Source.Schema := schema;
             Source.CredentialsProvider := credentialsProvider;
             Source.Database := "";
             Source.BootstrapServers := "";
             Source.SchemaRegistryURL := "";
             Source.KafkaProperties := [];
             Source.Labels := expandLabels d;
             Source.Attributes := expandAttributes d;
             Source.Warehouse := "";
             Source.AccessRules := accessRules |}
  | None =>
  match dropError (expandSingleMap (Get d "hive")) with
  | Some hive =>
      let? database := assertString (index hive "database") in
      Ret {| Source.ID := 0;
             Source.Name := GetString d "name";
             Source.Description := GetString d "description";
             Source.Type_ := "hive";
             Source.Bucket := "";
             Source.Path := "";
             Source.FileFormat := None;
             Source.Endpoint := "";
             Source.AccessKey := "";
             Source.SecretKey := "";
             Source.URL := "";
             Source.Schema := "";
             Source.CredentialsProvider := None;
             Source.Database := database;
             Source.BootstrapServers := "";
             Source.SchemaRegistryURL := "";
             Source.KafkaProperties := [];
             Source.Labels := expandLabels d;
             Source.Attributes := expandAttributes d;
             Source.Warehouse := "";
             Source.AccessRules := accessRules |}
  | None =>
  match dropError (expandSingleMap (Get d "big_query")) with
  | Some bigQuery =>
      let? path := assertString (index bigQuery "path") in
      Ret {| Source.ID := 0;
             Source.Name := GetString d "name";
             Source.Description := GetString d "description";
             Source.Type_ := "bigquery";
             Source.Bucket := "";
             Source.Path := path;
             Source.FileFormat := None;
             Source.Endpoint := "";
             Source.AccessKey := "";
             Source.SecretKey := "";
             Source.URL := "";
             Source.Schema := "";
             Source.CredentialsProvider := None;
             Source.Database := "";
             Source.BootstrapServers := "";
             Source.SchemaRegistryURL := "";
             Source.KafkaProperties := [];
             Source.Labels := expandLabels d;
             Source.Attributes := expandAttributes d;
             Source.Warehouse := "";
             Source.AccessRules := accessRules |}
  | None =>
  match dropError (expandSingleMap (Get d "gcs")) with
  | Some gcs =>
      let? fileFormat := composeFileFormat gcs in
      let? bucket := assertString (index gcs "bucket") in
      let? path := assertString (index gcs "path") in
      Ret {| Source.ID := 0;
             Source.Name := GetString d "name";
             Source.Description := GetString d "description";
             Source.Type_ := "gcs";
             Source.Bucket := bucket;
             Source.Path := path;
             Source.FileFormat := Some fileFormat;
             Source.Endpoint := "";
             Source.AccessKey := "";
             Source.SecretKey := "";
             Source.URL := "";
             Source.Schema := "";
             Source.CredentialsProvider := None;
             Source.Database := "";
             Source.BootstrapServers := "";
             Source.SchemaRegistryURL := "";
             Source.KafkaProperties := [];
             Source.Labels := expandLabels d;
             Source.Attributes := expandAttributes d;
             Source.Warehouse := "";
             Source.AccessRules := accessRules |}
  | None =>
  match dropError (expandSingleMap (Get d "local")) with
  | Some local =>
      let? fileFormat := composeFileFormat local in
      let? path := assertString (index local "path") in
      Ret {| Source.ID := 0;
             Source.Name := GetString d "name";
             Source.Description := GetString d "description";
             Source.Type_ := "local";
             Source.Bucket := "";
             Source.Path := path;
             Source.FileFormat := Some fileFormat;
             Source.Endpoint := "";
             Source.AccessKey := "";
             Source.SecretKey := "";
             Source.URL := "";
             Source.Schema := "";
             Source.CredentialsProvider := None;
             Source.Database := "";
             Source.BootstrapServers := "";
             Source.SchemaRegistryURL := "";
             Source.KafkaProperties := [];
             Source.Labels := expandLabels d;
             Source.Attributes := expandAttributes d;
             Source.Warehouse := "";
             Source.AccessRules := accessRules |}
  | None =>
  match dropError (expandSingleMap (Get d "hdfs")) with
  | Some hdfs =>
      let? fileFormat := composeFileFormat hdfs in
      let? path := assertString (index hdfs "path") in
      Ret {| Source.ID := 0;
             Source.Name := GetString d "name";
             Source.Description := GetString d "description";
             Source.Type_ := "hdfs";
             Source.Bucket := "";
             Source.Path := path;
             Source.FileFormat := Some fileFormat;
             Source.Endpoint := "";
             Source.AccessKey := "";
             Source.SecretKey := "";
             Source.URL := "";
             Source.Schema := "";
             Source.CredentialsProvider := None;
             Source.Database := "";
             Source.BootstrapServers := "";
             Source.SchemaRegistryURL := "";
             Source.KafkaProperties := [];
             Source.Labels := expandLabels d;
             Source.Attributes := expandAttributes d;
             Source.Warehouse := "";
             Source.AccessRules := accessRules |}
  | None =>
  match dropError (expandSingleMap (Get d "kafka")) with
  | Some kafka =>
      match index kafka "property" with
      | VList array =>
          let? sensitives :=
            traverse (fun v =>
              match v with
              | VMap prop =>
                  let? sa := composeSensitiveAttribute prop in
                  match sa with
                  | Some sa => Ret sa
                  | None => Crash
                  end
              | _ => Fail "Kafka Properties Value is not a map interfaces"
              end) array in
          let? bootstrapServers := assertString (index kafka "bootstrap_servers") in
          let? schemaRegistryURL := assertString (index kafka "schema_registry_url") in
          Ret {| Source.ID := 0;
                 Source.Name := GetString d "name";
                 Source.Description := GetString d "description";
                 Source.Type_ := "kafka";
                 Source.Bucket := "";
                 Source.Path := "";
                 Source.FileFormat := None;
                 Source.Endpoint := "";
                 Source.AccessKey := "";
                 Source.SecretKey := "";
                 Source.URL := "";
                 Source.Schema := "";
                 Source.CredentialsProvider := None;
                 Source.Database := "";
                 Source.BootstrapServers := bootstrapServers;
                 Source.SchemaRegistryURL := schemaRegistryURL;
                 Source.KafkaProperties := sensitives;
                 Source.Labels := expandLabels d;
                 Source.Attributes := expandAttributes d;
                 Source.Warehouse := "";
                 Source.AccessRules := accessRules |}
      | _ => Fail "Kafka Properties Value is not an array"
      end
  | None =>
  match dropError (expandSingleMap (Get d "snowflake")) with
  | Some snowflake =>
      let? credentialsProviderMap :=
        expandSingleMap (index snowflake "credentials_provider") in
      let? credentialsProvider :=
        composeLoginCredentialsProviderConfig credentialsProviderMap in
      let? url := assertString (index snowflake "url") in
      let? schema := assertString (index snowflake "schema") in
      let? warehouse := assertString (index snowflake "warehouse") in
      let? database := assertString (index snowflake "database") in
      Ret {| Source.ID := 0;
             Source.Name := GetString d "name";
             Source.Description := GetString d "description";
             Source.Type_ := "snowflake";
             Source.Bucket := "";
             Source.Path := "";
             Source.FileFormat := None;
             Source.Endpoint := "";
             Source.AccessKey := "";
             Source.SecretKey := "";
             Source.URL := url;
             Source.Schema := schema;
             Source.CredentialsProvider := credentialsProvider;
             Source.Database := database;
             Source.BootstrapServers := "";
             Source.SchemaRegistryURL := "";
             Source.KafkaProperties := [];
             Source.Labels := expandLabels d;
             Source.Attributes := expandAttributes d;
             Source.Warehouse := warehouse;
             Source.AccessRules := accessRules |}
  | None => Fail "Invalid source type"
  end end end end end end end end end end.

End Provider.

(** ** Vocabulary of the statements *)

Definition optionList {B} (o : option B) : list B :=
  match o with Some x => [x] | None => [] end.

(** A string is parseable as an integer when [Atoi] reports no error. *)
Definition parseable (s : string) : bool :=
  match Atoi s with (_, None) => true | (_, Some _) => false end.

(** Identifier expansion as the specification words it: the entries that are
    not parseable strings are skipped, the others give their integer value. *)
Definition identifiersOfParseable (configured : list value) : list Z :=
  omap (fun v =>
    match v with
    | VStr s => if parseable s then Some (Atoi s).1 else None
    | _ => None
    end) configured.

(** The discriminator values [resourceSourceRead] knows. *)
Definition knownSourceTags : list string :=
  ["s3"; "s3a"; "gcs"; "local"; "hdfs"; "jdbc"; "hive"; "bigquery"; "kafka"; "snowflake"].

(** The variant blocks of a source configuration, in the order
    [composeSource] scans them. *)
Definition variantOrder : list string :=
  ["s3"; "s3a"; "jdbc"; "hive"; "big_query"; "gcs"; "local"; "hdfs"; "kafka"; "snowflake"].

(** The attributes [resourceSourceRead] writes whatever the variant. *)
Definition commonSourceAttributes : list string :=
  ["name"; "description"; "labels"; "attribute"; "access_rule"].

(** A variant block is populated when it holds a single-element list of a
    map: the test [composeSource] applies to each block. *)
Definition populated (d : ResourceData) (k : string) : option (gmap string value) :=
  dropError (expandSingleMap (Get d k)).

Fixpoint firstPopulated (d : ResourceData) (order : list string)
  : option (string * gmap string value) :=
  match order with
  | [] => None
  | k :: rest =>
      match populated d k with
      | Some block => Some (k, block)
      | None => firstPopulated d rest
      end
  end.

(** The configuration [d] with every variant block but [k] removed. *)
Definition onlyBlock (k : string) (d : ResourceData) : ResourceData :=
  mkResourceData (Id d)
    (foldr (fun k' m => if String.eqb k' k then m else delete k' m)
       (attrs d) variantOrder).

(** The discriminator that goes with a variant block. *)
Definition discriminator (k : string) : string :=
  if String.eqb k "big_query" then "bigquery" else k.

(** The discriminator and the variant-specific fields of a wire source: all
    fields but the id and those common to every variant. *)
Definition variantFields (s : Source) :=
  (Source.Type_ s, Source.Bucket s, Source.Path s, Source.FileFormat s,
   Source.Endpoint s, Source.AccessKey s, Source.SecretKey s, Source.URL s,
   Source.Schema s, Source.CredentialsProvider s, Source.Database s,
   Source.BootstrapServers s, Source.SchemaRegistryURL s,
   Source.KafkaProperties s, Source.Warehouse s).

(** The wire source [composeSource] builds around the discriminator and the
    variant-specific fields, listed in the order of [variantFields]: the id
    is 0, name and description are read from the configuration, labels and
    attributes are expanded from it. *)
Definition wireSource `{Helpers} (d : ResourceData) (accessRules : list AccessRule)
    (fields : string * string * string * option FileFormat * string * string * string
              * string * string * option LoginCredentialsProviderConfig * string
              * string * string * list SensitiveAttribute * string) : Source :=
  let '(type_, bucket, path, fileFormat, endpoint, accessKey, secretKey, url, schema,
        credentialsProvider, database, bootstrapServers, schemaRegistryURL,
        kafkaProperties, warehouse) := fields in
  {| Source.ID := 0;
     Source.Name := GetString d "name";
     Source.Description := GetString d "description";
     Source.Type_ := type_;
     Source.Bucket := bucket;
     Source.Path := path;
     Source.FileFormat := fileFormat;
     Source.Endpoint := endpoint;
     Source.AccessKey := accessKey;
     Source.SecretKey := secretKey;
     Source.URL := url;
     Source.Schema := schema;
     Source.CredentialsProvider := credentialsProvider;
     Source.Database := database;
     Source.BootstrapServers := bootstrapServers;
     Source.SchemaRegistryURL := schemaRegistryURL;
     Source.KafkaProperties := kafkaProperties;
     Source.Labels := expandLabels d;
     Source.Attributes := expandAttributes d;
     Source.Warehouse := warehouse;
     Source.AccessRules := accessRules |}.

(** The entries of a [property] list are maps that compose, each to its
    sensitive attribute. *)
Definition composedProperties `{Helpers} (properties : list value)
    (sensitives : list SensitiveAttribute) : Prop :=
  Forall2 (fun v sa =>
    exists prop, v = VMap prop /\ composeSensitiveAttribute prop = Ret (Some sa))
    properties sensitives.

(** ** Sample collaborators and data *)

Definition acceptAll : PluginSdk := {| setError := fun _ _ => None |}.

Definition sampleHelpers : Helpers := {|
  expandLabels := fun d => expandStringList (GetList d "labels");
  expandAttributes := fun _ => [];
  flattenAttributes := fun _ => VList [];
  expandPrincipalIds := fun _ => Ret [];
  flattenPrincipalIds := fun _ => VList [];
  composeLoginCredentialsProviderConfig := fun _ => Ret None;
  parseLoginCredentialsProviderConfig := fun _ => Ret ∅;
  composeSensitiveAttribute := fun _ => Fail "no sensitive attribute";
  parseSensitiveAttribute := fun _ => Ret ∅ |}.

Definition emptyData (id : string) : ResourceData := mkResourceData id ∅.

(** A backend on which nothing exists. *)
Definition emptyBackend : Client := {|
  Client.GetEntity := fun _ => (None, None);
  Client.GetSource := fun _ => (None, None);
  Client.FindCluster := fun _ => (None, None) |}.

Definition compositeEntity : Entity := {|
  Entity.ID := 7;
  Entity.Name := "household";
  Entity.Description := "";
  Entity.Type_ := "composite";
  Entity.DefaultColumn := None;
  Entity.RequiredType := None;
  Entity.Entities := Some [1; 2; 3]%Z;
  Entity.Labels := [];
  Entity.Attributes := [] |}.

(** A wire source whose discriminator is none of the known ones. *)
Definition ftpSource : Source := {|
  Source.ID := 3;
  Source.Name := "legacy";
  Source.Description := "";
  Source.Type_ := "ftp";
  Source.Bucket := "";
  Source.Path := "/in";
  Source.FileFormat := None;
  Source.Endpoint := "";
  Source.AccessKey := "";
  Source.SecretKey := "";
  Source.URL := "";
  Source.Schema := "";
  Source.CredentialsProvider := None;
  Source.Database := "";
  Source.BootstrapServers := "";
  Source.SchemaRegistryURL := "";
  Source.KafkaProperties := [];
  Source.Labels := [];
  Source.Attributes := [];
  Source.Warehouse := "";
  Source.AccessRules := [] |}.

Definition sampleBackend : Client := {|
  Client.GetEntity := fun _ => (Some compositeEntity, None);
  Client.GetSource := fun _ => (Some ftpSource, None);
  Client.FindCluster := fun _ => (None, None) |}.

(** The keys the S3 block of the specification's example writes. *)
Definition s3Example : gmap string value :=
  <["field_separator" := VStr ","]>
  (<["file_format" := VStr "csv"]>
  (<["path" := VStr "p"]>
  (<["bucket" := VStr "b"]> ∅))).

Definition s3ExampleData : ResourceData :=
  mkResourceData "" (<["s3" := VList [VMap s3Example]]> (<["name" := VStr "raw"]> ∅)).

(** The configuration of the example as the host delivers it. *)
Definition s3DeliveredData : ResourceData :=
  mkResourceData ""
    (<["s3" := VList [VMap (delivered s3SourceDestinationSchema s3Example)]]>
    (<["name" := VStr "raw"]> ∅)).

(** A configuration with both an S3 and a Hive block. *)
Definition twoBlocksData : ResourceData :=
  mkResourceData ""
    (<["hive" := VList [VMap (delivered hiveSourceDestinationSchema
                                (<["database" := VStr "sales"]> ∅))]]>
    (<["s3" := VList [VMap (delivered s3SourceDestinationSchema s3Example)]]>
    (<["name" := VStr "raw"]> ∅))).

(** A Kafka block without properties. *)
Definition kafkaData : ResourceData :=
  mkResourceData ""
    (<["kafka" := VList [VMap (delivered kafkaSourceDestinationSchema
                                 (<["schema_registry_url" := VStr "http://registry"]>
                                 (<["bootstrap_servers" := VStr "broker:9092"]> ∅)))]]>
    (<["name" := VStr "events"]> ∅)).

(** ** Identifier validation (structure.go)

    [identifierPattern] is the regular expression [^[0-9]+$]: a string
    matches when it is a non-empty run of decimal digits.
    [validateAnamlIdentifier] accepts a value when it is a string matching
    the pattern. *)

Fixpoint allDigits (s : string) : bool :=
  match s with
  | EmptyString => true
  | String c rest => isDigit c && allDigits rest
  end.

Definition identifierPattern (s : string) : bool :=
  match s with
  | EmptyString => false
  | String _ _ => allDigits s
  end.

Definition validateAnamlIdentifier (i : value) : bool :=
  match i with
  | VStr v => identifierPattern v
  | _ => false
  end.

(** The number a run of digits denotes, read left to right from [n]. *)
Fixpoint decimalValue (s : string) (n : Z) : Z :=
  match s with
  | EmptyString => n
  | String c rest => decimalValue rest (n * 10 + digitValue c)
  end.

(** Which entries [expandStringList] keeps. *)
Definition keptString (v : value) : bool :=
  match v with
  | VStr s => negb (String.eqb s "")
  | _ => false
  end.

(** The keys of the optional sub-fields of a CSV file format, by the type of
    their value. *)
Definition stringFormatKeys : list string :=
  ["compression"; "date_format"; "empty_value"; "field_separator";
   "timestamp_format"; "line_separator"].

Definition boolFormatKeys : list string :=
  ["ignore_leading_whitespace"; "ignore_trailing_whitespace";
   "include_header"; "quote_all"].

(** For each discriminator [resourceSourceRead] tests, the variant block it
    writes and the function that flattens the source into it. *)
Definition flattenerOf `{Helpers} (tag : string)
  : option (string * (option Source -> outcome (list (gmap string value)))) :=
  if String.eqb tag "s3" then Some ("s3", parseS3Source)
  else if String.eqb tag "s3a" then Some ("s3a", parseS3ASource)
  else if String.eqb tag "gcs" then Some ("gcs", parseS3Source)
  else if String.eqb tag "local" then Some ("local", parseLocalSource)
  else if String.eqb tag "hdfs" then Some ("hdfs", parseLocalSource)
  else if String.eqb tag "jdbc" then Some ("jdbc", parseJDBCSource)
  else if String.eqb tag "hive" then Some ("hive", parseHiveSource)
  else if String.eqb tag "bigquery" then Some ("big_query", parseBigQuerySource)
  else if String.eqb tag "kafka" then Some ("kafka", parseKafkaSource)
  else if String.eqb tag "snowflake" then Some ("snowflake", parseSnowflakeSource)
  else None.

(** The resource data after [name] and [description] of a source are written. *)
Definition withNameAndDescription (source : Source) (d : ResourceData) : ResourceData :=
  mkResourceData (Id d)
    (<["description" := VStr (Source.Description source)]>
    (<["name" := VStr (Source.Name source)]> (attrs d))).

(** A backend that answers every source request with [source]. *)
Definition backendWith (source : Source) : Client := {|
  Client.GetEntity := fun _ => (None, None);
  Client.GetSource := fun _ => (Some source, None);
  Client.FindCluster := fun _ => (None, None) |}.

Definition hiveSource : Source := {|
  Source.ID := 11;
  Source.Name := "warehouse";
  Source.Description := "curated tables";
  Source.Type_ := "hive";
  Source.Bucket := "";
  Source.Path := "";
  Source.FileFormat := None;
  Source.Endpoint := "";
  Source.AccessKey := "";
  Source.SecretKey := "";
  Source.URL := "";
  Source.Schema := "";
  Source.CredentialsProvider := None;
  Source.Database := "sales";
  Source.BootstrapServers := "";
  Source.SchemaRegistryURL := "";
  Source.KafkaProperties := [];
  Source.Labels := [];
  Source.Attributes := [];
  Source.Warehouse := "";
  Source.AccessRules := [] |}.

(** An S3 source the backend returns without a file format. *)
Definition bareS3Source : Source := {|
  Source.ID := 12;
  Source.Name := "landing";
  Source.Description := "";
  Source.Type_ := "s3";
  Source.Bucket := "b";
  Source.Path := "p";
  Source.FileFormat := None;
  Source.Endpoint := "";
  Source.AccessKey := "";
  Source.SecretKey := "";
  Source.URL := "";
  Source.Schema := "";
  Source.CredentialsProvider := None;
  Source.Database := "";
  Source.BootstrapServers := "";
  Source.SchemaRegistryURL := "";
  Source.KafkaProperties := [];
  Source.Labels := [];
  Source.Attributes := [];
  Source.Warehouse := "";
  Source.AccessRules := [] |}.

(** ** Create, update and delete

    The methods of [*Client] that write to the backend, kept in a record of
    their own beside [Client]. *)

Module ClientWrites.
Record t : Type := mk {
  CreateEntity : Entity -> option Entity * option string;
  UpdateEntity : string -> Entity -> option string;
  DeleteEntity : string -> option string;
  CreateSource : Source -> option Source * option string;
  UpdateSource : string -> Source -> option string;
  DeleteSource : string -> option string }.
End ClientWrites.
Abbreviation ClientWrites := ClientWrites.t.

(** A call that returns only an error. *)
Definition errorOnly (err : option string) : handler unit :=
  match err with
  | Some e => hfail e
  | None => hret tt
  end.

Section Writes.
Context `{Helpers}.
#[local] Open Scope handler_scope.

Definition resourceEntityCreate (c : ClientWrites) : handler unit :=
  entity <- hread buildEntity ;;
  let '(e, err) := ClientWrites.CreateEntity c entity in
  match err, e with
  | Some err, _ => hfail err
  | None, None => hlift Crash
  | None, Some e => SetId (Itoa (Entity.ID e)) ;; hret tt
  end.

Definition resourceEntityUpdate (c : ClientWrites) : handler unit :=
  entityID <- hread Id ;;
  entity <- hread buildEntity ;;
  errorOnly (ClientWrites.UpdateEntity c entityID entity).

Definition resourceEntityDelete (c : ClientWrites) : handler unit :=
  entityID <- hread Id ;;
  errorOnly (ClientWrites.DeleteEntity c entityID).

Definition resourceSourceCreate (c : ClientWrites) : handler unit :=
  source <- (fun d => (d, composeSource d)) ;;
  let '(e, err) := ClientWrites.CreateSource c source in
  match err, e with
  | Some err, _ => hfail err
  | None, None => hlift Crash
  | None, Some e => SetId (Itoa (Source.ID e)) ;; hret tt
  end.

Definition resourceSourceUpdate (c : ClientWrites) : handler unit :=
  sourceID <- hread Id ;;
  source <- (fun d => (d, composeSource d)) ;;
  errorOnly (ClientWrites.UpdateSource c sourceID source).

Definition resourceSourceDelete (c : ClientWrites) : handler unit :=
  sourceID <- hread Id ;;
  errorOnly (ClientWrites.DeleteSource c sourceID).

End Writes.

(** A masking rule as it comes back from a flattened rule: a filter keeps
    its expression only, a mask keeps column and expression, a rule of
    another type is lost. *)
Definition flattenedMaskingRule (rule : MaskingRule) : option MaskingRule :=
  if String.eqb (MaskingRule.Type_ rule) "filter" then
    Some {| MaskingRule.Type_ := "filter";
            MaskingRule.Expression := MaskingRule.Expression rule;
            MaskingRule.Column := "" |}
  else if String.eqb (MaskingRule.Type_ rule) "mask" then Some rule
  else None.

(** A backend that creates what it is asked to, under a fixed id. *)
Definition creatingBackend (id : Z) : ClientWrites := {|
  ClientWrites.CreateEntity := fun entity =>
    (Some {| Entity.ID := id;
             Entity.Name := Entity.Name entity;
             Entity.Description := Entity.Description entity;
             Entity.Type_ := Entity.Type_ entity;
             Entity.DefaultColumn := Entity.DefaultColumn entity;
             Entity.RequiredType := Entity.RequiredType entity;
             Entity.Entities := Entity.Entities entity;
             Entity.Labels := Entity.Labels entity;
             Entity.Attributes := Entity.Attributes entity |}, None);
  ClientWrites.UpdateEntity := fun _ _ => None;
  ClientWrites.DeleteEntity := fun _ => None;
  ClientWrites.CreateSource := fun source =>
    (Some {| Source.ID := id;
             Source.Name := Source.Name source;
             Source.Description := Source.Description source;
             Source.Type_ := Source.Type_ source;
             Source.Bucket := Source.Bucket source;
             Source.Path := Source.Path source;
             Source.FileFormat := Source.FileFormat source;
             Source.Endpoint := Source.Endpoint source;
             Source.AccessKey := Source.AccessKey source;
             Source.SecretKey := Source.SecretKey source;
             Source.URL := Source.URL source;
             Source.Schema := Source.Schema source;
             Source.CredentialsProvider := Source.CredentialsProvider source;
             Source.Database := Source.Database source;
             Source.BootstrapServers := Source.BootstrapServers source;
             Source.SchemaRegistryURL := Source.SchemaRegistryURL source;
             Source.KafkaProperties := Source.KafkaProperties source;
             Source.Labels := Source.Labels source;
             Source.Attributes := Source.Attributes source;
             Source.Warehouse := Source.Warehouse source;
             Source.AccessRules := Source.AccessRules source |}, None);
  ClientWrites.UpdateSource := fun _ _ => None;
  ClientWrites.DeleteSource := fun _ => None |}.

(** A base entity whose required type is not a plain string. *)
Definition baseEntity : Entity := {|
  Entity.ID := 8;
  Entity.Name := "customer";
  Entity.Description := "";
  Entity.Type_ := "base";
  Entity.DefaultColumn := Some "customer_id";
  Entity.RequiredType := Some (VMap (<["adt_type" := VStr "decimal"]> ∅));
  Entity.Entities := None;
  Entity.Labels := [];
  Entity.Attributes := [] |}.

Definition sampleCluster : Cluster := {|
  Cluster.ID := 4;
  Cluster.Name := "batch";
  Cluster.Description := "nightly jobs";
  Cluster.Type_ := "local";
  Cluster.IsPreviewCluster := false;
  Cluster.AnamlServerURL := "";
  Cluster.SparkServerURL := "";
  Cluster.CredentialsProvider := None;
  Cluster.SparkConfig := None;
  Cluster.PropertySet := [];
  Cluster.Labels := [];
  Cluster.Attributes := [] |}.

(** A backend that knows one entity and one cluster. *)
Definition catalogueBackend (entity : Entity) (cluster : Cluster) : Client := {|
  Client.GetEntity := fun _ => (Some entity, None);
  Client.GetSource := fun _ => (None, None);
  Client.FindCluster := fun _ => (Some cluster, None) |}.

(** A GCS source stored as Parquet. *)
Definition parquetSource : Source := {|
  Source.ID := 13;
  Source.Name := "events";
  Source.Description := "";
  Source.Type_ := "gcs";
  Source.Bucket := "lake";
  Source.Path := "events/";
  Source.FileFormat :=
    Some {| FileFormat.Type_ := "parquet";
            FileFormat.Sep := None;
            FileFormat.QuoteAll := None;
            FileFormat.IncludeHeader := None;
            FileFormat.EmptyValue := None;
            FileFormat.Compression := None;
            FileFormat.DateFormat := None;
            FileFormat.TimestampFormat := None;
            FileFormat.IgnoreLeadingWhiteSpace := None;
            FileFormat.IgnoreTrailingWhiteSpace := None;
            FileFormat.LineSep := None |};
  Source.Endpoint := "";
  Source.AccessKey := "";
  Source.SecretKey := "";
  Source.URL := "";
  Source.Schema := "";
  Source.CredentialsProvider := None;
  Source.Database := "";
  Source.BootstrapServers := "";
  Source.SchemaRegistryURL := "";
  Source.KafkaProperties := [];
  Source.Labels := [];
  Source.Attributes := [];
  Source.Warehouse := "";
  Source.AccessRules := [] |}.

(** * Properties *)

(** ** Loops that append to a slice *)

Lemma fold_left_append {A B} (step : list B -> A -> list B) (f : A -> option B) :
  (forall vs v, step vs v = vs ++ optionList (f v)) ->
  forall l acc, fold_left step l acc = acc ++ omap f l.
Proof.
  intros Hstep l. induction l as [|x l IH]; intros acc; simpl.
  - by rewrite app_nil_r.
  - rewrite IH, Hstep. destruct (f x); simpl.
    + by rewrite <- app_assoc.
    + by rewrite app_nil_r.
Qed.

Lemma omap_length_le {A B} (f : A -> option B) (l : list A) :
  length (omap f l) <= length l.
Proof.
  induction l as [|x l IH]; csimpl; [lia|].
  destruct (f x); simpl; lia.
Qed.

Lemma omap_cons_None {A B} (f : A -> option B) (x : A) (l : list A) :
  f x = None -> omap f (x :: l) = omap f l.
Proof.
  intros Hx.
  change (omap f (x :: l))
    with (match f x with Some y => y :: omap f l | None => omap f l end).
  by rewrite Hx.
Qed.

Lemma omap_agree {A B} (f g : A -> option B) (l : list A) :
  Forall (fun x => f x = g x) l -> omap f l = omap g l.
Proof.
  induction 1 as [|x l Hx _ IH]; [done|]. csimpl. by rewrite Hx, IH.
Qed.

Lemma traverse_Forall2 {A B} (f : A -> outcome B) (l : list A) (ys : list B) :
  Forall2 (fun x y => f x = Ret y) l ys -> traverse f l = Ret ys.
Proof.
  induction 1 as [|x y l ys Hx _ IH]; [done|].
  cbn [traverse]. by rewrite Hx, IH.
Qed.

Lemma traverse_app_Fail {A B} (f : A -> outcome B) (before after : list A)
    (x : A) (ys : list B) (e : string) :
  Forall2 (fun x y => f x = Ret y) before ys ->
  f x = Fail e ->
  traverse f (before ++ x :: after) = Fail e.
Proof.
  intros Hbefore Hx. induction Hbefore as [|x' y before ys Hx' _ IH]; cbn [traverse app].
  - by rewrite Hx.
  - by rewrite Hx', IH.
Qed.

(** ** Role mapping *)

Lemma tableImage_None table token :
  ~ recognised table token -> tableImage table token = None.
Proof.
  unfold recognised. induction table as [|[k v] table IH]; simpl; [done|].
  intros Hnot. destruct (String.eqb_spec token k) as [->|Hne].
  - exfalso. apply Hnot. left.
  - apply IH. intros Hin. apply Hnot. by right.
Qed.

Lemma tableImage_Some table token image :
  tableImage table token = Some image -> recognised table token.
Proof.
  unfold recognised. induction table as [|[k v] table IH]; simpl; [done|].
  destruct (String.eqb_spec token k) as [->|Hne]; intros Himg.
  - left.
  - right. by apply IH.
Qed.

Ltac split_chain v :=
  repeat match goal with
  | |- context [String.eqb v ?s] => destruct (String.eqb v s); [reflexivity|]
  end.

Lemma mapRolesToBackend_table (frontend : list string) :
  mapRolesToBackend frontend
  = omap (fun v => Role.mk <$> tableImage roleNameTable v) frontend.
Proof.
  unfold mapRolesToBackend.
  rewrite fold_left_append with (f := fun v => Role.mk <$> tableImage roleNameTable v);
    [done|].
  intros vs v. unfold roleNameTable, tableImage.
  split_chain v. simpl. by rewrite app_nil_r.
Qed.

Lemma mapRolesToFrontend_table (backend : list Role) :
  mapRolesToFrontend backend
  = omap (fun v => tableImage frontendBranches (Role.Type_ v)) backend.
Proof.
  unfold mapRolesToFrontend.
  rewrite fold_left_append with (f := fun v => tableImage frontendBranches (Role.Type_ v));
    [done|].
  intros vs [v]. unfold frontendBranches, tableImage. simpl.
  split_chain v. simpl. by rewrite app_nil_r.
Qed.

(** The tokens [mapRolesToBackend] recognises are the vocabulary of
    [validRoles]. *)
Lemma roleNameTable_keys : roleNameTable.*1 = validRoles.
Proof. reflexivity. Qed.

(** Every token of the vocabulary except [run_event_store] comes back from
    the backend form unchanged. *)
Lemma role_roundtrip_other_tokens (frontend : list string) :
  Forall (fun token => token ∈ validRoles /\ token <> "run_event_store") frontend ->
  mapRolesToFrontend (mapRolesToBackend frontend) = frontend.
Proof.
  rewrite mapRolesToBackend_table, mapRolesToFrontend_table.
  induction 1 as [|token frontend [Hin Hne] _ IH]; [done|].
  assert (omap (fun v => tableImage frontendBranches (Role.Type_ v))
            (omap (fun v => Role.mk <$> tableImage roleNameTable v) [token])
          = [token]) as Hone.
  { unfold validRoles in Hin.
    repeat (apply elem_of_cons in Hin as [->|Hin]; [try done; reflexivity|]).
    by apply elem_of_nil in Hin. }
  change (token :: frontend) with ([token] ++ frontend).
  rewrite omap_app, omap_app, Hone, IH. done.
Qed.

(** C1 (defect of the code): the vocabulary token [run_event_store] does not
    survive the round trip.  [mapRolesToBackend] sends it to [runeventstore],
    which [mapRolesToFrontend] does not recognise (it tests [runevent_store]),
    so the token is lost. *)
Theorem role_roundtrip_loses_run_event_store :
  "run_event_store" ∈ validRoles
  /\ mapRolesToBackend ["run_event_store"] = [Role.mk "runeventstore"]
  /\ mapRolesToFrontend (mapRolesToBackend ["run_event_store"]) = []
  /\ mapRolesToFrontend (mapRolesToBackend ["run_event_store"]) <> ["run_event_store"].
Proof.
  split; [|split; [|split]].
  - unfold validRoles. set_solver.
  - reflexivity.
  - reflexivity.
  - discriminate.
Qed.

Lemma roleNameTable_without_underscores :
  roleNameTable
  = (fun token =>
       (token, string_of_list_ascii
                 (List.filter (fun c => negb (Ascii.eqb c "_"))
                    (list_ascii_of_string token)))) <$> validRoles.
Proof. reflexivity. Qed.

Lemma frontendBranches_elsewhere (token : string) :
  token <> "runeventstore" -> token <> "runevent_store" ->
  tableImage frontendBranches token = tableImage (inverseTable roleNameTable) token.
Proof.
  intros Hrow Htypo. unfold frontendBranches, inverseTable, roleNameTable.
  cbn [fmap list_fmap fst snd tableImage].
  repeat match goal with
         | |- context [String.eqb token ?s] =>
             destruct (String.eqb_spec token s) as [->|?]; [done|]
         end.
  done.
Qed.

(** C9 (defect of the code): against the one role-name table,
    [mapRolesToBackend] does what the claim says: its output is the list of
    table images of the recognised tokens, in order, never longer than the
    input, and a token absent from the table contributes nothing.
    [mapRolesToFrontend] does so for every backend role but two.  It drops
    [runeventstore], which the table holds, and it keeps [runevent_store],
    which the table does not hold: the misspelt branch of C1. *)
Theorem role_mapping_against_table :
  (forall frontend : list string,
      mapRolesToBackend frontend
      = omap (fun v => Role.mk <$> tableImage roleNameTable v) frontend
      /\ length (mapRolesToBackend frontend) <= length frontend)
  /\ (forall (before after : list string) (token : string),
      ~ recognised roleNameTable token ->
      mapRolesToBackend (before ++ token :: after) = mapRolesToBackend (before ++ after))
  /\ (forall backend : list Role,
      Forall (fun role => Role.Type_ role <> "runeventstore"
                          /\ Role.Type_ role <> "runevent_store") backend ->
      mapRolesToFrontend backend
      = omap (fun v => tableImage (inverseTable roleNameTable) (Role.Type_ v)) backend)
  /\ (forall backend : list Role,
      length (mapRolesToFrontend backend) <= length backend)
  /\ (tableImage (inverseTable roleNameTable) "runeventstore" = Some "run_event_store"
      /\ mapRolesToFrontend [Role.mk "runeventstore"] = [])
  /\ (~ recognised (inverseTable roleNameTable) "runevent_store"
      /\ mapRolesToFrontend [Role.mk "runevent_store"] = ["run_event_store"]).
Proof.
  split; [|split; [|split; [|split; [|split]]]].
  - intros frontend. rewrite mapRolesToBackend_table. split; [done|].
    apply omap_length_le.
  - intros before after token Hnot.
    rewrite !mapRolesToBackend_table, !omap_app. f_equal.
    apply omap_cons_None. by rewrite (tableImage_None _ _ Hnot).
  - intros backend Helsewhere. rewrite mapRolesToFrontend_table.
    apply omap_agree. eapply Forall_impl; [exact Helsewhere|].
    intros role [Hrow Htypo]. by apply frontendBranches_elsewhere.
  - intros backend. rewrite mapRolesToFrontend_table. apply omap_length_le.
  - split; reflexivity.
  - split; [|reflexivity]. unfold recognised.
    apply (bool_decide_unpack _). by vm_compute.
Qed.

Lemma role_mapping_against_table_witness :
  mapRolesToBackend (["author"] ++ "root" :: ["super_user"])
  = mapRolesToBackend (["author"] ++ ["super_user"]).
Proof.
  apply (proj1 (proj2 role_mapping_against_table)).
  unfold recognised. apply (bool_decide_unpack _). by vm_compute.
Defined.

(** ** Identifier lists *)

Lemma expandIdentifierList_omap (configured : list value) :
  expandIdentifierList configured
  = omap (fun v =>
      match v with
      | VStr s => if String.eqb s "" then None else Some (Atoi s).1
      | _ => None
      end) configured.
Proof.
  unfold expandIdentifierList. apply (fold_left_append _ _) with (acc := []).
  intros vs v. destruct v as [|s| | | | |]; simpl; try by rewrite app_nil_r.
  destruct (String.eqb s ""); simpl; [by rewrite app_nil_r|].
  by destruct (Atoi s).
Qed.

Lemma Atoi_error_value (s : string) (n : Z) (e : numError) :
  Atoi s = (n, Some e) ->
  match e with
  | ErrSyntax => n = 0%Z
  | ErrRange => n = maxInt \/ n = minInt
  end.
Proof.
  unfold Atoi, ParseInt. destruct s as [|c rest]; [by intros [= <- <-]|].
  destruct (ParseUint _) as [un [[|]|]];
    repeat case_match; intros ?; simplify_eq; auto.
Qed.

(** C5, as the claim words it, fails: an entry that is a non-empty string
    but not a number is not skipped; it yields the 0 that [Atoi] returns
    next to the error the code discards. *)
Lemma expandIdentifierList_keeps_unparseable :
  parseable "abc" = false
  /\ expandIdentifierList [VStr "abc"] = [0%Z]
  /\ expandIdentifierList [VStr "abc"] <> identifiersOfParseable [VStr "abc"].
Proof. split; [reflexivity|split; [reflexivity|discriminate]]. Qed.

Lemma Atoi_range_value (s : string) (n : Z) :
  Atoi s = (n, Some ErrRange) ->
  n = if String.prefix "-" s then minInt else maxInt.
Proof.
  unfold Atoi, ParseInt. destruct s as [|c rest]; [done|].
  cbn [String.prefix].
  destruct (Ascii.eqb_spec c "-") as [->|Hminus].
  - change (Ascii.eqb "-" "+") with false. cbn [orb negb andb].
    destruct (ascii_dec "-" "-") as [_|Hne]; [|done].
    replace (String.prefix "" rest) with true by (by destruct rest).
    destruct (ParseUint rest) as [un [[|]|]];
      repeat case_match; intros ?; by simplify_eq.
  - destruct (ascii_dec "-" c) as [<-|_]; [done|].
    destruct (ParseUint _) as [un [[|]|]];
      repeat case_match; intros ?; by simplify_eq.
Qed.

(** C5 (amended): [expandIdentifierList] skips the entries that are not
    strings or are the empty string, and returns, in input order and without
    error, one integer for each remaining entry: the value [Atoi] gives it
    with the error discarded.  That value is the integer value of the entry
    when it is parseable, 0 when [Atoi] reports a syntax error, and, when
    [Atoi] reports a range error, the smallest [int] for an entry that starts
    with a minus sign and the largest [int] otherwise.  On lists whose
    strings are all empty or parseable this is the claimed result. *)
Theorem expandIdentifierList_skips_only_empty (configured : list value) :
  expandIdentifierList configured
  = omap (fun v =>
      match v with
      | VStr s => if String.eqb s "" then None else Some (Atoi s).1
      | _ => None
      end) configured
  /\ (forall s n e,
        Atoi s = (n, Some e) ->
        match e with
        | ErrSyntax => n = 0%Z
        | ErrRange => n = if String.prefix "-" s then minInt else maxInt
        end)
  /\ (Forall (fun v => forall s, v = VStr s -> s = "" \/ parseable s = true) configured ->
      expandIdentifierList configured = identifiersOfParseable configured).
Proof.
  split; [apply expandIdentifierList_omap|split].
  - intros s n [|] Hs.
    + by apply (Atoi_error_value s n ErrSyntax).
    + by apply Atoi_range_value.
  - rewrite expandIdentifierList_omap. unfold identifiersOfParseable.
    induction 1 as [|v configured Hv _ IH]; [done|].
    csimpl. rewrite IH. destruct v as [|s| | | | |]; try done.
    destruct (Hv s eq_refl) as [->|Hs]; [done|].
    rewrite Hs. destruct (String.eqb_spec s "") as [->|]; [done|done].
Qed.

(** A range error is reported as soon as the digits read pass 64 bits, also
    when a byte that is not a digit follows. *)
Example expandIdentifierList_range_before_syntax :
  Atoi "99999999999999999999abc" = (maxInt, Some ErrRange)
  /\ expandIdentifierList [VStr "99999999999999999999abc"; VStr "-99999999999999999999"]
     = [maxInt; minInt].
Proof. split; reflexivity. Qed.

Lemma expandIdentifierList_skips_only_empty_witness :
  expandIdentifierList [VStr "12"; VStr ""; VBool true; VStr "-7"]
  = identifiersOfParseable [VStr "12"; VStr ""; VBool true; VStr "-7"].
Proof.
  apply (expandIdentifierList_skips_only_empty
           [VStr "12"; VStr ""; VBool true; VStr "-7"]).
  repeat (constructor; [intros s Hs; simplify_eq; vm_compute; auto|]).
  constructor.
Defined.

(** ** Running handlers *)

Lemma Set_accepted `{PluginSdk} (k : string) (v : value) (d : ResourceData) :
  setError k v = None ->
  Set_ k v d = (mkResourceData (Id d) (<[k := v]> (attrs d)), Ret tt).
Proof. intros Hok. unfold Set_. by rewrite Hok. Qed.

(** ** Entities *)

Section Entities.
Context `{PluginSdk} `{Helpers}.

(** C10: the entity [buildEntity] produces has exactly one variant
    populated.  With a non-empty [default_column] it is a base entity with
    its default column and no entity list; otherwise it is a composite entity
    with an entity list and neither default column nor required type.  Its
    type is never anything but [base] or [composite]. *)
Theorem buildEntity_one_variant (d : ResourceData) :
  (GetString d "default_column" <> "" ->
     Entity.Type_ (buildEntity d) = "base"
     /\ Entity.DefaultColumn (buildEntity d) = Some (GetString d "default_column")
     /\ Entity.Entities (buildEntity d) = None)
  /\ (GetString d "default_column" = "" ->
     Entity.Type_ (buildEntity d) = "composite"
     /\ Entity.Entities (buildEntity d)
        = Some (expandIdentifierList (GetList d "entities"))
     /\ Entity.DefaultColumn (buildEntity d) = None
     /\ Entity.RequiredType (buildEntity d) = None)
  /\ (Entity.Type_ (buildEntity d) = "base"
      \/ Entity.Type_ (buildEntity d) = "composite").
Proof.
  unfold buildEntity.
  destruct (String.eqb_spec (GetString d "default_column") "") as [Hempty|Hset];
    simpl; repeat split; intros; try done; auto.
Qed.

(** C7: reading back a composite entity whose entity list is [1, 2, 3]
    leaves the configuration with [entities] set to the decimal strings
    "1", "2", "3" in that order and with [default_column] and
    [required_type] both cleared. *)
Theorem resourceEntityRead_composite (c : Client) (d : ResourceData) (entity : Entity) :
  (forall k v, setError k v = None) ->
  Client.GetEntity c (Id d) = (Some entity, None) ->
  Entity.Entities entity = Some [1; 2; 3]%Z ->
  exists d',
    resourceEntityRead c d = (d', Ret tt)
    /\ Id d' = Id d
    /\ attrs d' !! "entities" = Some (VList [VStr "1"; VStr "2"; VStr "3"])
    /\ attrs d' !! "default_column" = Some VNil
    /\ attrs d' !! "required_type" = Some VNil.
Proof.
  intros Hset Hget Hentities.
  unfold resourceEntityRead, hbind, hread, hret. rewrite Hget, Hentities.
  destruct (Entity.DefaultColumn entity) as [defaultColumn|];
    [destruct (Entity.RequiredType entity) as [derefed|];
       [destruct (tryString derefed)|]|];
    rewrite ?Set_accepted by apply Hset; simpl;
    (eexists; split; [reflexivity|]); simpl;
    repeat split; by simplify_map_eq.
Qed.

End Entities.

Lemma buildEntity_one_variant_witness :
  Entity.Type_ (@buildEntity sampleHelpers
     (mkResourceData "" (<["default_column" := VStr "customer_id"]> ∅))) = "base".
Proof.
  apply (@buildEntity_one_variant sampleHelpers
           (mkResourceData "" (<["default_column" := VStr "customer_id"]> ∅))).
  vm_compute. discriminate.
Defined.

Lemma resourceEntityRead_composite_witness :
  exists d',
    @resourceEntityRead acceptAll sampleHelpers sampleBackend (emptyData "7")
    = (d', Ret tt)
    /\ Id d' = "7"
    /\ attrs d' !! "entities" = Some (VList [VStr "1"; VStr "2"; VStr "3"])
    /\ attrs d' !! "default_column" = Some VNil
    /\ attrs d' !! "required_type" = Some VNil.
Proof.
  apply (@resourceEntityRead_composite acceptAll sampleHelpers sampleBackend
           (emptyData "7") compositeEntity); reflexivity.
Defined.

(** ** Reading a missing object *)

Section Reads.
Context `{PluginSdk} `{Helpers}.

(** C6: when the backend reports the object as missing (a nil object and no
    error), each read handler clears the resource id, touches nothing else
    and returns success. *)
Theorem read_missing_clears_id (c : Client) (d : ResourceData) :
  (Client.GetEntity c (Id d) = (None, None) ->
     resourceEntityRead c d = (mkResourceData "" (attrs d), Ret tt))
  /\ (Client.GetSource c (Id d) = (None, None) ->
     resourceSourceRead c d = (mkResourceData "" (attrs d), Ret tt))
  /\ (Client.FindCluster c (GetString d "name") = (None, None) ->
     dataSourceClusterRead c d = (mkResourceData "" (attrs d), Ret tt)).
Proof.
  split; [|split]; intros Hmissing.
  - unfold resourceEntityRead, hbind, hread. by rewrite Hmissing.
  - unfold resourceSourceRead, hbind, hread. by rewrite Hmissing.
  - unfold dataSourceClusterRead, hbind, hread. by rewrite Hmissing.
Qed.

(** ** Unknown discriminators *)

Lemma unknown_tag_tests (tag : string) :
  tag ∉ knownSourceTags ->
  Forall (fun known => String.eqb tag known = false) knownSourceTags.
Proof.
  intros Hunknown. apply Forall_forall. intros known Hknown.
  destruct (String.eqb_spec tag known) as [->|]; done.
Qed.

Lemma resourceSourceRead_unknown_tag_steps (c : Client) (d : ResourceData) (source : Source) :
  Client.GetSource c (Id d) = (Some source, None) ->
  Source.Type_ source ∉ knownSourceTags ->
  resourceSourceRead c d
  = (Set_ "name" (VStr (Source.Name source)) ;;
     Set_ "description" (VStr (Source.Description source)) ;;
     Set_ "labels" (strings (Source.Labels source)) ;;
     Set_ "attribute" (flattenAttributes (Source.Attributes source)) ;;
     Set_ "access_rule" (flattenAccessRules (Source.AccessRules source)) ;;
     hret tt)%handler d.
Proof.
  intros Hget Hunknown.
  apply unknown_tag_tests in Hunknown. unfold knownSourceTags in Hunknown.
  repeat (apply Forall_cons in Hunknown as [? Hunknown]).
  unfold resourceSourceRead, hread. unfold hbind at 1. rewrite Hget.
  repeat match goal with
         | Htest : String.eqb _ _ = false |- _ => rewrite Htest; clear Htest
         end.
  unfold when, hbind, hret.
  destruct (Set_ "name" _ d) as [d1 [[]| |]]; [|done|done].
  destruct (Set_ "description" _ d1) as [d2 [[]| |]]; done.
Qed.

Lemma variant_block_not_common (k : string) :
  k ∈ variantOrder -> k ∉ commonSourceAttributes.
Proof.
  unfold variantOrder. intros Hk.
  repeat (apply elem_of_cons in Hk as [->|Hk];
          [apply (bool_decide_unpack _); by vm_compute|]).
  by apply elem_of_nil in Hk.
Qed.

(** C2 (amended): a wire source whose discriminator is none of the known
    tags raises no error of its own in [resourceSourceRead].  The handler
    runs exactly the writes of [name], [description], [labels], [attribute]
    and [access_rule], in that order and with the values of the wire source,
    stopping at the first one the host rejects.  It keeps the id, leaves
    every variant block and every other attribute as it was, and returns
    success unless the host rejects one of the five writes; when the host
    accepts them the resulting data is the old one with the five attributes
    replaced. *)
Theorem resourceSourceRead_unknown_tag (c : Client) (d : ResourceData) (source : Source) :
  Client.GetSource c (Id d) = (Some source, None) ->
  Source.Type_ source ∉ knownSourceTags ->
  let result := resourceSourceRead c d in
  Id result.1 = Id d
  /\ (forall k, k ∈ variantOrder -> attrs result.1 !! k = attrs d !! k)
  /\ (result.2 = Ret tt
      \/ exists k v e,
           k ∈ commonSourceAttributes /\ setError k v = Some e /\ result.2 = Fail e)
  /\ ((forall k v, setError k v = None) -> result.2 = Ret tt)
  /\ result
     = (Set_ "name" (VStr (Source.Name source)) ;;
        Set_ "description" (VStr (Source.Description source)) ;;
        Set_ "labels" (strings (Source.Labels source)) ;;
        Set_ "attribute" (flattenAttributes (Source.Attributes source)) ;;
        Set_ "access_rule" (flattenAccessRules (Source.AccessRules source)) ;;
        hret tt)%handler d
  /\ (forall k, k ∉ commonSourceAttributes -> attrs result.1 !! k = attrs d !! k)
  /\ ((forall k v, setError k v = None) ->
      result
      = (mkResourceData (Id d)
           (<["access_rule" := flattenAccessRules (Source.AccessRules source)]>
           (<["attribute" := flattenAttributes (Source.Attributes source)]>
           (<["labels" := strings (Source.Labels source)]>
           (<["description" := VStr (Source.Description source)]>
           (<["name" := VStr (Source.Name source)]> (attrs d)))))),
         Ret tt)).
Proof.
  intros Hget Hunknown result. subst result.
  rewrite (resourceSourceRead_unknown_tag_steps c d source Hget Hunknown).
  assert (forall k, k ∉ commonSourceAttributes ->
            Forall (fun common => common <> k) commonSourceAttributes) as Hother.
  { intros k Hk. apply Forall_forall. intros common Hcommon ->. done. }
  split_and!; [| | | |done| |].
  all: unfold hbind, hret, Set_.
  - repeat case_match; by simplify_eq.
  - intros k Hk. apply variant_block_not_common, Hother in Hk.
    unfold commonSourceAttributes in Hk.
    repeat (apply Forall_cons in Hk as [? Hk]).
    repeat case_match; simplify_eq; simpl; by rewrite ?lookup_insert_ne by done.
  - repeat case_match; simplify_eq; simpl;
      first [ by left
            | right; do 3 eexists; split; [|split; [eassumption|reflexivity]];
              apply (bool_decide_unpack _); by vm_compute ].
  - intros Hall. by rewrite !Hall.
  - intros k Hk. apply Hother in Hk.
    unfold commonSourceAttributes in Hk.
    repeat (apply Forall_cons in Hk as [? Hk]).
    repeat case_match; simplify_eq; simpl; by rewrite ?lookup_insert_ne by done.
  - intros Hall. by rewrite !Hall.
Qed.

End Reads.

Lemma read_missing_clears_id_witness :
  @resourceEntityRead acceptAll sampleHelpers emptyBackend (emptyData "42")
  = (mkResourceData "" ∅, Ret tt).
Proof.
  apply (@read_missing_clears_id acceptAll sampleHelpers emptyBackend (emptyData "42")).
  reflexivity.
Defined.

(** C2, as the claim words it, fails: reading a source whose discriminator is
    [ftp] does not fail.  It succeeds and leaves every variant block unset. *)
Lemma resourceSourceRead_unknown_tag_succeeds :
  (Source.Type_ ftpSource ∉ knownSourceTags)
  /\ (@resourceSourceRead acceptAll sampleHelpers sampleBackend (emptyData "3")).2
     = Ret tt
  /\ Forall (fun k =>
       attrs (@resourceSourceRead acceptAll sampleHelpers sampleBackend (emptyData "3")).1
         !! k = None) variantOrder.
Proof.
  split; [|split].
  - apply (bool_decide_unpack _). by vm_compute.
  - reflexivity.
  - repeat constructor.
Qed.

Lemma resourceSourceRead_unknown_tag_witness :
  @resourceSourceRead acceptAll sampleHelpers sampleBackend (emptyData "3")
  = (mkResourceData "3"
       (<["access_rule" := VList []]>
       (<["attribute" := VList []]>
       (<["labels" := VList []]>
       (<["description" := VStr ""]>
       (<["name" := VStr "legacy"]> ∅))))),
     Ret tt).
Proof.
  apply (@resourceSourceRead_unknown_tag acceptAll sampleHelpers sampleBackend
           (emptyData "3") ftpSource).
  - reflexivity.
  - apply (bool_decide_unpack _). by vm_compute.
  - reflexivity.
Defined.

(** ** Composing a source *)

(** On the four written keys alone, a map the host does not deliver, the
    other sub-fields are nil. *)
Lemma composeFileFormat_s3Example :
  composeFileFormat s3Example
  = Ret {| FileFormat.Type_ := "csv";
           FileFormat.Sep := Some ",";
           FileFormat.QuoteAll := None;
           FileFormat.IncludeHeader := None;
           FileFormat.EmptyValue := None;
           FileFormat.Compression := None;
           FileFormat.DateFormat := None;
           FileFormat.TimestampFormat := None;
           FileFormat.IgnoreLeadingWhiteSpace := None;
           FileFormat.IgnoreTrailingWhiteSpace := None;
           FileFormat.LineSep := None |}.
Proof. reflexivity. Qed.

Lemma delivered_typed (t : schemaType) (o : option value) :
  (forall v, o = Some v -> hasType t v = true) ->
  match t with
  | TypeString => exists s, default (zeroValue t) o = VStr s
  | TypeBool => exists b, default (zeroValue t) o = VBool b
  | TypeList => exists l, default (zeroValue t) o = VList l
  end.
Proof.
  intros Htyped. destruct o as [v|]; simpl.
  - specialize (Htyped v eq_refl). destruct t, v; try discriminate; by eexists.
  - destruct t; by eexists.
Qed.

Section Compose.
Context `{Helpers}.

(** C8 (defect of the code): the S3 block of the example reaches
    [composeSource] as the host delivers it, with every key of
    [s3SourceDestinationSchema].  The wire source has type [s3], bucket [b],
    path [p] and a CSV file format whose separator points at a comma, but
    none of the other nine sub-fields is nil: the strings point at the empty
    string and the flags at [false], because the two-result assertions of
    [composeFileFormat] succeed on the zero values.  The same holds of every
    CSV block the host delivers: all ten sub-fields are set, whichever keys
    the configuration writes. *)
Theorem composeSource_s3_csv_not_null (d : ResourceData) (accessRules : list AccessRule) :
  Get d "s3" = VList [VMap (delivered s3SourceDestinationSchema s3Example)] ->
  expandAccessRules (GetList d "access_rule") = Ret accessRules ->
  composeSource d
  = Ret {| Source.ID := 0;
           Source.Name := GetString d "name";
           Source.Description := GetString d "description";
           Source.Type_ := "s3";
           Source.Bucket := "b";
           Source.Path := "p";
           Source.FileFormat :=
             Some {| FileFormat.Type_ := "csv";
                     FileFormat.Sep := Some ",";
                     FileFormat.QuoteAll := Some false;
                     FileFormat.IncludeHeader := Some false;
                     FileFormat.EmptyValue := Some "";
                     FileFormat.Compression := Some "";
                     FileFormat.DateFormat := Some "";
                     FileFormat.TimestampFormat := Some "";
                     FileFormat.IgnoreLeadingWhiteSpace := Some false;
                     FileFormat.IgnoreTrailingWhiteSpace := Some false;
                     FileFormat.LineSep := Some "" |};
           Source.Endpoint := "";
           Source.AccessKey := "";
           Source.SecretKey := "";
           Source.URL := "";
           Source.Schema := "";
           Source.CredentialsProvider := None;
           Source.Database := "";
           Source.BootstrapServers := "";
           Source.SchemaRegistryURL := "";
           Source.KafkaProperties := [];
           Source.Labels := expandLabels d;
           Source.Attributes := expandAttributes d;
           Source.Warehouse := "";
           Source.AccessRules := accessRules |}
  /\ (forall configured,
        wellTyped s3SourceDestinationSchema configured ->
        configured !! "file_format" = Some (VStr "csv") ->
        exists sep quoteAll includeHeader emptyValue compression dateFormat
               timestampFormat ignoreLeading ignoreTrailing lineSep,
          composeFileFormat (delivered s3SourceDestinationSchema configured)
          = Ret {| FileFormat.Type_ := "csv";
                   FileFormat.Sep := Some sep;
                   FileFormat.QuoteAll := Some quoteAll;
                   FileFormat.IncludeHeader := Some includeHeader;
                   FileFormat.EmptyValue := Some emptyValue;
                   FileFormat.Compression := Some compression;
                   FileFormat.DateFormat := Some dateFormat;
                   FileFormat.TimestampFormat := Some timestampFormat;
                   FileFormat.IgnoreLeadingWhiteSpace := Some ignoreLeading;
                   FileFormat.IgnoreTrailingWhiteSpace := Some ignoreTrailing;
                   FileFormat.LineSep := Some lineSep |}).
Proof.
  intros Hs3 Hrules. split.
  - unfold composeSource. rewrite Hrules, Hs3. reflexivity.
  - intros configured Htyped Hcsv. unfold wellTyped, s3SourceDestinationSchema in Htyped.
    repeat (let Hkey := fresh "Hkey" in
            apply Forall_cons in Htyped as [Hkey Htyped];
            apply delivered_typed in Hkey; cbn beta iota in Hkey;
            destruct Hkey as [? Hkey]).
    unfold composeFileFormat, delivered, s3SourceDestinationSchema, index.
    cbn [foldr]. simplify_map_eq.
    repeat match goal with
           | Hkey : default _ _ = _ |- _ => rewrite Hkey; clear Hkey
           end.
    simpl. by repeat eexists.
Qed.

(** C4: with none of the ten variant blocks populated, [composeSource]
    produces no wire record.  It returns the error [Invalid source type]; the
    only other way out is the failure of the access-rule expansion that
    runs before the blocks are looked at. *)
Theorem composeSource_no_block (d : ResourceData) :
  Forall (fun k => populated d k = None) variantOrder ->
  (forall source, composeSource d <> Ret source)
  /\ (forall accessRules,
        expandAccessRules (GetList d "access_rule") = Ret accessRules ->
        composeSource d = Fail "Invalid source type")
  /\ composeSource d
     = obind (expandAccessRules (GetList d "access_rule"))
         (fun _ => Fail "Invalid source type").
Proof.
  intros Hnone. unfold variantOrder in Hnone.
  repeat (apply Forall_cons in Hnone as [? Hnone]).
  assert (composeSource d
          = obind (expandAccessRules (GetList d "access_rule"))
              (fun _ => Fail "Invalid source type")) as Hcompose.
  { unfold composeSource, populated in *.
    destruct (expandAccessRules _); simpl; [|done|done].
    repeat match goal with
           | Hk : dropError _ = None |- _ => rewrite Hk; clear Hk
           end.
    done. }
  rewrite Hcompose. split; [|split; [|done]].
  - intros source. by destruct (expandAccessRules _).
  - intros accessRules Hrules. by rewrite Hrules.
Qed.

End Compose.

Lemma composeSource_s3_csv_not_null_witness :
  omapo variantFields (@composeSource sampleHelpers s3DeliveredData)
  = Ret ("s3", "b", "p",
         Some {| FileFormat.Type_ := "csv";
                 FileFormat.Sep := Some ",";
                 FileFormat.QuoteAll := Some false;
                 FileFormat.IncludeHeader := Some false;
                 FileFormat.EmptyValue := Some "";
                 FileFormat.Compression := Some "";
                 FileFormat.DateFormat := Some "";
                 FileFormat.TimestampFormat := Some "";
                 FileFormat.IgnoreLeadingWhiteSpace := Some false;
                 FileFormat.IgnoreTrailingWhiteSpace := Some false;
                 FileFormat.LineSep := Some "" |},
         "", "", "", "", "", None, "", "", "", [], "").
Proof.
  rewrite (proj1 (@composeSource_s3_csv_not_null sampleHelpers s3DeliveredData []
                    eq_refl eq_refl)).
  reflexivity.
Defined.

Lemma composeSource_no_block_witness :
  @composeSource sampleHelpers (emptyData "") = Fail "Invalid source type".
Proof.
  apply (@composeSource_no_block sampleHelpers (emptyData "")) with (accessRules := []).
  - repeat constructor.
  - reflexivity.
Defined.

(** ** Which block is composed *)

Section Selection.
Context `{Helpers}.

Ltac first_block d :=
  unfold variantOrder, firstPopulated;
  repeat match goal with
         | |- match populated d ?k with _ => _ end = _ -> _ =>
             let E := fresh "Hblock" in
             destruct (populated d k) eqn:E; [intros ?; simplify_eq|]
         end;
  try (intros ?; discriminate).

Lemma composeSource_first_block (d1 d2 : ResourceData) (k : string)
    (block : gmap string value) :
  firstPopulated d1 variantOrder = Some (k, block) ->
  firstPopulated d2 variantOrder = Some (k, block) ->
  GetList d1 "access_rule" = GetList d2 "access_rule" ->
  omapo variantFields (composeSource d1) = omapo variantFields (composeSource d2)
  /\ (forall source, composeSource d1 = Ret source -> Source.Type_ source = discriminator k).
Proof.
  intros H1 H2 Hrules. revert H2. revert H1.
  first_block d1.
  all: first_block d2.
  all: unfold composeSource, populated in *; rewrite Hrules.
  all: repeat match goal with
         | Hk : dropError _ = _ |- _ => rewrite Hk; clear Hk
         end.
  all: destruct (expandAccessRules _); simpl; [|done|done].
  all: try destruct (index block "property").
  all: repeat match goal with
         | |- context [obind ?x _] => destruct x; simpl
         end.
  all: split; [done|intros source ?; by simplify_eq].
Qed.

Lemma onlyBlock_lookup (k k' : string) (d : ResourceData) :
  attrs (onlyBlock k d) !! k'
  = if decide (k' ∈ variantOrder /\ k' <> k) then None else attrs d !! k'.
Proof.
  unfold onlyBlock. cbn [attrs]. generalize variantOrder as order.
  induction order as [|x order IH]; cbn [foldr].
  - rewrite decide_False; [done|]. intros [Hin _]. by apply elem_of_nil in Hin.
  - destruct (String.eqb_spec x k) as [Hxk|Hxk].
    + rewrite IH. apply decide_ext. rewrite elem_of_cons. intuition congruence.
    + destruct (decide (k' = x)) as [Heq|Hne].
      * rewrite Heq, lookup_delete_eq, decide_True; [done|].
        split; [apply elem_of_cons; by left|done].
      * rewrite lookup_delete_ne by done. rewrite IH.
        apply decide_ext. rewrite elem_of_cons. intuition congruence.
Qed.

Lemma populated_onlyBlock (k k' : string) (d : ResourceData) :
  populated (onlyBlock k d) k'
  = if decide (k' ∈ variantOrder /\ k' <> k) then None else populated d k'.
Proof.
  unfold populated, Get, index. rewrite onlyBlock_lookup. by case_decide.
Qed.

Lemma firstPopulated_onlyBlock (d : ResourceData) (k : string)
    (block : gmap string value) (order : list string) :
  firstPopulated d order = Some (k, block) ->
  firstPopulated (onlyBlock k d) order = Some (k, block).
Proof.
  induction order as [|x order IH]; simpl; [done|].
  rewrite populated_onlyBlock.
  destruct (populated d x) as [found|] eqn:Hx.
  - intros Heq. simplify_eq. by rewrite decide_False by (intros [_ Hne]; done).
  - intros Hrest. case_decide; rewrite ?Hx; by apply IH.
Qed.

Lemma GetList_onlyBlock (k : string) (d : ResourceData) :
  GetList (onlyBlock k d) "access_rule" = GetList d "access_rule".
Proof.
  unfold GetList. rewrite onlyBlock_lookup.
  rewrite decide_False; [done|].
  intros [Hin _]. revert Hin. apply (bool_decide_unpack _). by vm_compute.
Qed.

Lemma composedProperties_traverse (properties : list value)
    (sensitives : list SensitiveAttribute) :
  composedProperties properties sensitives ->
  traverse (fun v =>
    match v with
    | VMap prop =>
        obind (composeSensitiveAttribute prop) (fun sa =>
          match sa with
          | Some sa => Ret sa
          | None => Crash
          end)
    | _ => Fail "Kafka Properties Value is not a map interfaces"
    end) properties = Ret sensitives.
Proof.
  intros Hall. apply traverse_Forall2.
  eapply Forall2_impl; [exact Hall|].
  intros v sa (prop & -> & Hprop). by rewrite Hprop.
Qed.

Lemma composeSource_block_fields (d : ResourceData) (k : string)
    (block : gmap string value) (accessRules : list AccessRule) :
  firstPopulated d variantOrder = Some (k, block) ->
  expandAccessRules (GetList d "access_rule") = Ret accessRules ->
  (forall bucket path fileFormat,
     k = "s3" \/ k = "gcs" ->
     composeFileFormat block = Ret fileFormat ->
     index block "bucket" = VStr bucket ->
     index block "path" = VStr path ->
     composeSource d
     = Ret (wireSource d accessRules
              (k, bucket, path, Some fileFormat, "", "", "", "", "", None, "",
               "", "", [], "")))
  /\ (forall bucket path fileFormat endpoint accessKey secretKey,
     k = "s3a" ->
     composeFileFormat block = Ret fileFormat ->
     index block "bucket" = VStr bucket ->
     index block "path" = VStr path ->
     index block "endpoint" = VStr endpoint ->
     index block "access_key" = VStr accessKey ->
     index block "secret_key" = VStr secretKey ->
     composeSource d
     = Ret (wireSource d accessRules
              ("s3a", bucket, path, Some fileFormat, endpoint, accessKey, secretKey,
               "", "", None, "", "", "", [], "")))
  /\ (forall credentialsProviderMap credentialsProvider url schema,
     k = "jdbc" ->
     expandSingleMap (index block "credentials_provider") = Ret credentialsProviderMap ->
     composeLoginCredentialsProviderConfig credentialsProviderMap
     = Ret credentialsProvider ->
     index block "url" = VStr url ->
     index block "schema" = VStr schema ->
     composeSource d
     = Ret (wireSource d accessRules
              ("jdbc", "", "", None, "", "", "", url, schema, credentialsProvider, "",
               "", "", [], "")))
  /\ (forall database,
     k = "hive" ->
     index block "database" = VStr database ->
     composeSource d
     = Ret (wireSource d accessRules
              ("hive", "", "", None, "", "", "", "", "", None, database,
               "", "", [], "")))
  /\ (forall path,
     k = "big_query" ->
     index block "path" = VStr path ->
     composeSource d
     = Ret (wireSource d accessRules
              ("bigquery", "", path, None, "", "", "", "", "", None, "",
               "", "", [], "")))
  /\ (forall path fileFormat,
     k = "local" \/ k = "hdfs" ->
     composeFileFormat block = Ret fileFormat ->
     index block "path" = VStr path ->
     composeSource d
     = Ret (wireSource d accessRules
              (k, "", path, Some fileFormat, "", "", "", "", "", None, "",
               "", "", [], "")))
  /\ (forall properties sensitives bootstrapServers schemaRegistryURL,
     k = "kafka" ->
     index block "property" = VList properties ->
     composedProperties properties sensitives ->
     index block "bootstrap_servers" = VStr bootstrapServers ->
     index block "schema_registry_url" = VStr schemaRegistryURL ->
     composeSource d
     = Ret (wireSource d accessRules
              ("kafka", "", "", None, "", "", "", "", "", None, "",
               bootstrapServers, schemaRegistryURL, sensitives, "")))
  /\ (forall credentialsProviderMap credentialsProvider url schema warehouse database,
     k = "snowflake" ->
     expandSingleMap (index block "credentials_provider") = Ret credentialsProviderMap ->
     composeLoginCredentialsProviderConfig credentialsProviderMap
     = Ret credentialsProvider ->
     index block "url" = VStr url ->
     index block "schema" = VStr schema ->
     index block "warehouse" = VStr warehouse ->
     index block "database" = VStr database ->
     composeSource d
     = Ret (wireSource d accessRules
              ("snowflake", "", "", None, "", "", "", url, schema, credentialsProvider,
               database, "", "", [], warehouse))).
Proof.
  intros Hfirst Hrules. revert Hfirst. first_block d.
  all: unfold composeSource, populated in *; rewrite Hrules; cbn [obind].
  all: repeat match goal with
         | Hk : dropError _ = _ |- _ => rewrite Hk; clear Hk
         end.
  all: split_and!; intros.
  all: repeat match goal with
         | Hk : _ \/ _ |- _ => destruct Hk as [Hk|Hk]
         end.
  all: try discriminate.
  all: try match goal with
         | Hall : composedProperties _ _ |- _ =>
             apply composedProperties_traverse in Hall
         end.
  all: repeat first
         [ progress cbn [obind assertString]
         | match goal with
           | Heq : ?x = _ |- context [?x] => rewrite Heq; clear Heq
           end ].
  all: reflexivity.
Qed.

(** C3: the first populated block, in the order s3, s3a, jdbc, hive,
    big_query, gcs, local, hdfs, kafka, snowflake, decides the wire record,
    however many blocks are populated after it.  The record carries the
    discriminator of that block, and its discriminator and variant-specific
    fields are those composed from the configuration in which every other
    variant block is removed: nothing of another populated block is merged
    in.  The same holds of two configurations that share their first
    populated block.  When the access rules expand and the selected block
    holds its fields, a record is produced, and it is the one stated variant
    by variant: the bucket, path, file format, endpoint, keys, url, schema,
    credentials provider, database, servers, registry, properties and
    warehouse are those of the selected block, and every field of another
    variant keeps its zero value. *)
Theorem composeSource_first_block_wins (d : ResourceData) (k : string)
    (block : gmap string value) :
  firstPopulated d variantOrder = Some (k, block) ->
  (forall source, composeSource d = Ret source -> Source.Type_ source = discriminator k)
  /\ omapo variantFields (composeSource d)
     = omapo variantFields (composeSource (onlyBlock k d))
  /\ (forall d',
        firstPopulated d' variantOrder = Some (k, block) ->
        GetList d' "access_rule" = GetList d "access_rule" ->
        omapo variantFields (composeSource d') = omapo variantFields (composeSource d))
  /\ (forall accessRules,
        expandAccessRules (GetList d "access_rule") = Ret accessRules ->
        (forall bucket path fileFormat,
           k = "s3" \/ k = "gcs" ->
           composeFileFormat block = Ret fileFormat ->
           index block "bucket" = VStr bucket ->
           index block "path" = VStr path ->
           composeSource d
           = Ret (wireSource d accessRules
                    (k, bucket, path, Some fileFormat, "", "", "", "", "", None, "",
                     "", "", [], "")))
        /\ (forall bucket path fileFormat endpoint accessKey secretKey,
           k = "s3a" ->
           composeFileFormat block = Ret fileFormat ->
           index block "bucket" = VStr bucket ->
           index block "path" = VStr path ->
           index block "endpoint" = VStr endpoint ->
           index block "access_key" = VStr accessKey ->
           index block "secret_key" = VStr secretKey ->
           composeSource d
           = Ret (wireSource d accessRules
                    ("s3a", bucket, path, Some fileFormat, endpoint, accessKey, secretKey,
                     "", "", None, "", "", "", [], "")))
        /\ (forall credentialsProviderMap credentialsProvider url schema,
           k = "jdbc" ->
           expandSingleMap (index block "credentials_provider")
           = Ret credentialsProviderMap ->
           composeLoginCredentialsProviderConfig credentialsProviderMap
           = Ret credentialsProvider ->
           index block "url" = VStr url ->
           index block "schema" = VStr schema ->
           composeSource d
           = Ret (wireSource d accessRules
                    ("jdbc", "", "", None, "", "", "", url, schema, credentialsProvider,
                     "", "", "", [], "")))
        /\ (forall database,
           k = "hive" ->
           index block "database" = VStr database ->
           composeSource d
           = Ret (wireSource d accessRules
                    ("hive", "", "", None, "", "", "", "", "", None, database,
                     "", "", [], "")))
        /\ (forall path,
           k = "big_query" ->
           index block "path" = VStr path ->
           composeSource d
           = Ret (wireSource d accessRules
                    ("bigquery", "", path, None, "", "", "", "", "", None, "",
                     "", "", [], "")))
        /\ (forall path fileFormat,
           k = "local" \/ k = "hdfs" ->
           composeFileFormat block = Ret fileFormat ->
           index block "path" = VStr path ->
           composeSource d
           = Ret (wireSource d accessRules
                    (k, "", path, Some fileFormat, "", "", "", "", "", None, "",
                     "", "", [], "")))
        /\ (forall properties sensitives bootstrapServers schemaRegistryURL,
           k = "kafka" ->
           index block "property" = VList properties ->
           composedProperties properties sensitives ->
           index block "bootstrap_servers" = VStr bootstrapServers ->
           index block "schema_registry_url" = VStr schemaRegistryURL ->
           composeSource d
           = Ret (wireSource d accessRules
                    ("kafka", "", "", None, "", "", "", "", "", None, "",
                     bootstrapServers, schemaRegistryURL, sensitives, "")))
        /\ (forall credentialsProviderMap credentialsProvider url schema warehouse
                   database,
           k = "snowflake" ->
           expandSingleMap (index block "credentials_provider")
           = Ret credentialsProviderMap ->
           composeLoginCredentialsProviderConfig credentialsProviderMap
           = Ret credentialsProvider ->
           index block "url" = VStr url ->
           index block "schema" = VStr schema ->
           index block "warehouse" = VStr warehouse ->
           index block "database" = VStr database ->
           composeSource d
           = Ret (wireSource d accessRules
                    ("snowflake", "", "", None, "", "", "", url, schema,
                     credentialsProvider, database, "", "", [], warehouse)))).
Proof.
  intros Hfirst. split; [|split; [|split]].
  - eapply composeSource_first_block; eauto.
  - eapply composeSource_first_block; eauto using firstPopulated_onlyBlock.
    by rewrite GetList_onlyBlock.
  - intros d' Hfirst' Hrules. eapply composeSource_first_block; eauto.
  - intros accessRules Hrules. by apply composeSource_block_fields.
Qed.

End Selection.

Example composeSource_two_blocks :
  omapo variantFields (@composeSource sampleHelpers twoBlocksData)
  = omapo variantFields (@composeSource sampleHelpers s3DeliveredData)
  /\ omapo Source.Database (@composeSource sampleHelpers twoBlocksData) = Ret "".
Proof. split; reflexivity. Qed.

Lemma composeSource_first_block_wins_witness :
  omapo variantFields (@composeSource sampleHelpers twoBlocksData)
  = Ret ("s3", "b", "p",
         Some {| FileFormat.Type_ := "csv";
                 FileFormat.Sep := Some ",";
                 FileFormat.QuoteAll := Some false;
                 FileFormat.IncludeHeader := Some false;
                 FileFormat.EmptyValue := Some "";
                 FileFormat.Compression := Some "";
                 FileFormat.DateFormat := Some "";
                 FileFormat.TimestampFormat := Some "";
                 FileFormat.IgnoreLeadingWhiteSpace := Some false;
                 FileFormat.IgnoreTrailingWhiteSpace := Some false;
                 FileFormat.LineSep := Some "" |},
         "", "", "", "", "", None, "", "", "", [], "").
Proof.
  assert (firstPopulated twoBlocksData variantOrder
          = Some ("s3", delivered s3SourceDestinationSchema s3Example)) as Hfirst
    by reflexivity.
  rewrite (proj1 (proj2 (proj2 (proj2
             (@composeSource_first_block_wins sampleHelpers twoBlocksData
                "s3" _ Hfirst))) [] eq_refl)
             "b" "p" _ (or_introl eq_refl) eq_refl eq_refl eq_refl).
  reflexivity.
Defined.

(** * Further properties *)

(** ** Decimal strings *)

Lemma isDigit_value (c : ascii) :
  isDigit c = true -> (0 <= digitValue c <= 9)%Z.
Proof.
  unfold isDigit, digitValue. intros Hc.
  apply andb_true_iff in Hc as [Hlo Hhi].
  apply Nat.leb_le in Hlo, Hhi. lia.
Qed.

Lemma decimalValue_ge (s : string) (n : Z) :
  allDigits s = true -> (0 <= n)%Z -> (n <= decimalValue s n)%Z.
Proof.
  revert n. induction s as [|c rest IH]; simpl; intros n Hs Hn; [lia|].
  apply andb_true_iff in Hs as [Hc Hrest].
  apply isDigit_value in Hc.
  specialize (IH (n * 10 + digitValue c)%Z Hrest). lia.
Qed.

(** The digit loop on a run of digits: the number read, unless it does not
    fit 64 bits. *)
Lemma parseUintLoop_digits (s : string) (n : Z) :
  allDigits s = true -> (0 <= n <= maxUint64)%Z ->
  parseUintLoop s n
  = if (decimalValue s n <=? maxUint64)%Z then (decimalValue s n, None)
    else (maxUint64, Some ErrRange).
Proof.
  revert n. induction s as [|c rest IH]; simpl; intros n Hs Hn.
  - destruct (Z.leb_spec n maxUint64); [done|lia].
  - apply andb_true_iff in Hs as [Hc Hrest]. rewrite Hc.
    pose proof (isDigit_value c Hc) as Hd.
    pose proof (decimalValue_ge rest (n * 10 + digitValue c) Hrest) as Hge.
    assert (maxUint64 = 18446744073709551615%Z) as Hmax by reflexivity.
    destruct (Z.leb_spec (maxUint64 / 10 + 1) n) as [Hcut|Hcut].
    + rewrite Hmax in Hcut. change (18446744073709551615 / 10 + 1)%Z
        with 1844674407370955162%Z in Hcut.
      destruct (Z.leb_spec (decimalValue rest (n * 10 + digitValue c)) maxUint64);
        [lia|done].
    + destruct (Z.ltb_spec maxUint64 (n * 10 + digitValue c)) as [Hover|Hfit].
      * destruct (Z.leb_spec (decimalValue rest (n * 10 + digitValue c)) maxUint64);
          [lia|done].
      * apply IH; [done|lia].
Qed.

Lemma Atoi_digits (s : string) :
  identifierPattern s = true ->
  Atoi s
  = if (decimalValue s 0 <=? maxInt)%Z then (decimalValue s 0, None)
    else (maxInt, Some ErrRange).
Proof.
  destruct s as [|c rest]; [done|]. intros Hs. unfold identifierPattern in Hs.
  assert (maxUint64 = 18446744073709551615%Z) as Hmax by reflexivity.
  assert (maxInt = 9223372036854775807%Z) as Hint by reflexivity.
  pose proof (decimalValue_ge (String c rest) 0 Hs) as Hge.
  pose proof (parseUintLoop_digits (String c rest) 0 Hs) as Hloop.
  unfold Atoi, ParseInt.
  assert (Ascii.eqb c "+" = false /\ Ascii.eqb c "-" = false) as [-> ->].
  { simpl in Hs. apply andb_true_iff in Hs as [Hc _]. revert Hc.
    split.
    - destruct (Ascii.eqb_spec c "+") as [->|]; [by vm_compute|done].
    - destruct (Ascii.eqb_spec c "-") as [->|]; [by vm_compute|done]. }
  cbn [orb negb andb]. unfold ParseUint. rewrite Hloop by lia.
  change (2 ^ 63)%Z with 9223372036854775808%Z.
  destruct (Z.leb_spec (decimalValue (String c rest) 0) maxUint64);
    destruct (Z.leb_spec (decimalValue (String c rest) 0) maxInt);
    repeat match goal with
           | |- context [Z.leb ?a ?b] => destruct (Z.leb_spec a b)
           end; try done; lia.
Qed.

(** X1: an identifier the schema validation accepts is never a syntax error
    for [Atoi]; it parses to the number its digits denote when that fits an
    [int], and to the largest [int], with a range error the caller discards,
    when it does not. *)
Theorem validated_identifier_parses (s : string) :
  validateAnamlIdentifier (VStr s) = true ->
  (0 <= decimalValue s 0)%Z
  /\ ((decimalValue s 0 <= maxInt)%Z ->
       Atoi s = (decimalValue s 0, None)
       /\ expandIdentifierList [VStr s] = [decimalValue s 0])
  /\ ((maxInt < decimalValue s 0)%Z ->
       Atoi s = (maxInt, Some ErrRange)
       /\ expandIdentifierList [VStr s] = [maxInt]).
Proof.
  intros Hvalid. simpl in Hvalid.
  pose proof (Atoi_digits s Hvalid) as Hatoi.
  assert (allDigits s = true) as Hdigits by (by destruct s).
  assert (String.eqb s "" = false) as Hne by (by destruct s).
  split; [by apply decimalValue_ge|].
  unfold expandIdentifierList. simpl. rewrite Hne. simpl.
  split; intros Hrange.
  - rewrite (proj2 (Z.leb_le _ _)) in Hatoi by done. by rewrite Hatoi.
  - rewrite (proj2 (Z.leb_gt _ _)) in Hatoi by done. by rewrite Hatoi.
Qed.

Lemma validated_identifier_parses_witness :
  Atoi "9223372036854775808" = (maxInt, Some ErrRange)
  /\ expandIdentifierList [VStr "9223372036854775808"] = [maxInt].
Proof.
  apply (validated_identifier_parses "9223372036854775808"); [reflexivity|].
  vm_compute. reflexivity.
Defined.

(** ** Printing and parsing identifiers *)

Lemma string_of_uint_digits (d : Decimal.uint) :
  allDigits (NilEmpty.string_of_uint d) = true.
Proof. induction d; simpl; done. Qed.

Lemma decimalValue_string_of_uint (d d' : Decimal.uint) :
  decimalValue (NilEmpty.string_of_uint d) (Z.of_N (DecimalPos.Unsigned.of_lu d'))
  = Z.of_N (DecimalPos.Unsigned.of_lu (Decimal.revapp d d')).
Proof.
  revert d'. induction d as [|d IH|d IH|d IH|d IH|d IH|d IH|d IH|d IH|d IH|d IH];
    intros d'; [done|..];
    cbn [NilEmpty.string_of_uint decimalValue Decimal.revapp];
    rewrite <- IH; f_equal; cbn [DecimalPos.Unsigned.of_lu];
    unfold digitValue;
    match goal with
    | |- context [Z.of_nat (nat_of_ascii ?c)] =>
        let v := eval vm_compute in (Z.of_nat (nat_of_ascii c)) in
        change (Z.of_nat (nat_of_ascii c)) with v
    end; lia.
Qed.

Lemma string_of_uint_pos (p : positive) :
  NilZero.string_of_uint (Pos.to_uint p) = NilEmpty.string_of_uint (Pos.to_uint p)
  /\ NilEmpty.string_of_uint (Pos.to_uint p) <> ""
  /\ allDigits (NilEmpty.string_of_uint (Pos.to_uint p)) = true
  /\ decimalValue (NilEmpty.string_of_uint (Pos.to_uint p)) 0 = Z.pos p.
Proof.
  pose proof (DecimalPos.Unsigned.to_uint_nonnil p) as Hnil.
  split; [|split; [|split]].
  - unfold NilZero.string_of_uint. by destruct (Pos.to_uint p).
  - by destruct (Pos.to_uint p).
  - apply string_of_uint_digits.
  - change 0%Z with (Z.of_N (DecimalPos.Unsigned.of_lu Decimal.Nil)).
    rewrite decimalValue_string_of_uint.
    change (Decimal.revapp (Pos.to_uint p) Decimal.Nil)
      with (Decimal.rev (Pos.to_uint p)).
    by rewrite <- DecimalPos.Unsigned.of_uint_alt, DecimalPos.Unsigned.of_to.
Qed.

Lemma Itoa_pattern (i : Z) : (0 <= i)%Z -> identifierPattern (Itoa i) = true.
Proof.
  intros Hi. destruct i as [|p|p]; [done| |lia].
  destruct (string_of_uint_pos p) as (Hzero & Hne & Hdigits & _).
  unfold Itoa. cbn [Z.to_int NilZero.string_of_int]. rewrite Hzero.
  unfold identifierPattern. by destruct (NilEmpty.string_of_uint _).
Qed.

Lemma Itoa_value (i : Z) : (0 <= i)%Z -> decimalValue (Itoa i) 0 = i.
Proof.
  intros Hi. destruct i as [|p|p]; [done| |lia].
  destruct (string_of_uint_pos p) as (Hzero & _ & _ & Hvalue).
  unfold Itoa. cbn [Z.to_int NilZero.string_of_int]. by rewrite Hzero.
Qed.

Lemma Itoa_nonempty (i : Z) : String.eqb (Itoa i) "" = false.
Proof.
  destruct i as [|p|p]; [done| |done].
  destruct (string_of_uint_pos p) as (Hzero & Hne & _).
  unfold Itoa. cbn [Z.to_int NilZero.string_of_int]. rewrite Hzero.
  by destruct (NilEmpty.string_of_uint _).
Qed.

Lemma Atoi_Itoa (i : Z) :
  (minInt <= i <= maxInt)%Z -> Atoi (Itoa i) = (i, None).
Proof.
  assert (maxUint64 = 18446744073709551615%Z) as Hmax by reflexivity.
  assert (maxInt = 9223372036854775807%Z) as Hint by reflexivity.
  assert (minInt = (-9223372036854775808)%Z) as Hmin by reflexivity.
  intros Hi. destruct (Z.le_gt_cases 0 i) as [Hpos|Hneg].
  - rewrite (Atoi_digits _ (Itoa_pattern i Hpos)), (Itoa_value i Hpos).
    by rewrite (proj2 (Z.leb_le _ _)) by lia.
  - destruct i as [|p|p]; [lia|lia|].
    destruct (string_of_uint_pos p) as (Hzero & Hne & Hdigits & Hvalue).
    unfold Itoa. cbn [Z.to_int NilZero.string_of_int]. rewrite Hzero.
    unfold Atoi, ParseInt. change (Ascii.eqb "-" "-") with true.
    change (Ascii.eqb "-" "+") with false. cbn [orb negb andb].
    unfold ParseUint.
    rewrite (parseUintLoop_digits _ 0 Hdigits) by lia. rewrite Hvalue.
    destruct (NilEmpty.string_of_uint (Pos.to_uint p)) eqn:Hstr; [done|].
    rewrite (proj2 (Z.leb_le _ _)) by lia.
    change (2 ^ 63)%Z with 9223372036854775808%Z.
    by rewrite (proj2 (Z.ltb_ge _ _)) by lia.
Qed.

Lemma identifierList_map (ints : list Z) : identifierList ints = Itoa <$> ints.
Proof.
  unfold identifierList.
  rewrite (fold_left_append (fun vs v => vs ++ [Itoa v]) (fun v => Some (Itoa v)))
    by done.
  induction ints as [|i ints IH]; [done|]. csimpl. by f_equal.
Qed.

Lemma expandIdentifierList_identifierList (ints : list Z) :
  Forall (fun i => (minInt <= i <= maxInt)%Z) ints ->
  expandIdentifierList (VStr <$> identifierList ints) = ints.
Proof.
  rewrite identifierList_map, expandIdentifierList_omap.
  induction 1 as [|i ints Hi _ IH]; [done|].
  csimpl. by rewrite Itoa_nonempty, (Atoi_Itoa i Hi), IH.
Qed.

(** X2: identifiers survive flattening and expansion.  A list of backend
    identifiers within the range of [int], printed by [identifierList] and
    read back by [expandIdentifierList], is the list itself; each printed
    identifier parses back to the number it came from. *)
Theorem identifier_list_roundtrip (ints : list Z) :
  Forall (fun i => (minInt <= i <= maxInt)%Z) ints ->
  expandIdentifierList (VStr <$> identifierList ints) = ints
  /\ Forall (fun i => Atoi (Itoa i) = (i, None)) ints.
Proof.
  intros Hrange. split; [by apply expandIdentifierList_identifierList|].
  eapply Forall_impl; [exact Hrange|]. intros i. apply Atoi_Itoa.
Qed.

Lemma identifier_list_roundtrip_witness :
  expandIdentifierList (VStr <$> identifierList [0; 42; -7]%Z) = [0; 42; -7]%Z.
Proof.
  apply (identifier_list_roundtrip [0; 42; -7]%Z).
  repeat (constructor; [vm_compute; split; discriminate|]). constructor.
Defined.

(** X3: the strings [identifierList] prints are accepted by the validation
    of the schema exactly when the identifiers are non-negative: the string
    of a negative identifier starts with a minus sign and is rejected. *)
Theorem identifierList_validated (ints : list Z) :
  Forall (fun s => validateAnamlIdentifier (VStr s) = true) (identifierList ints)
  <-> Forall (fun i => (0 <= i)%Z) ints.
Proof.
  rewrite identifierList_map, Forall_fmap. apply Forall_iff. intros i. simpl. split.
  - intros Hvalid. destruct i as [|p|p]; [lia|lia|]. by vm_compute in Hvalid.
  - apply Itoa_pattern.
Qed.

(** ** String lists *)

Lemma expandStringList_omap (configured : list value) :
  expandStringList configured
  = omap (fun v =>
      match v with
      | VStr s => if String.eqb s "" then None else Some s
      | _ => None
      end) configured.
Proof.
  unfold expandStringList. apply (fold_left_append _ _) with (acc := []).
  intros vs v. destruct v as [|s| | | | |]; simpl; try by rewrite app_nil_r.
  destruct (String.eqb s ""); simpl; [by rewrite app_nil_r|done].
Qed.

(** X4: [expandStringList] returns exactly the non-empty strings of its
    input, in order: entries of another type and empty strings are dropped
    without error.  Hence the result never holds the empty string, and
    expanding it again changes nothing. *)
Theorem expandStringList_keeps_nonempty_strings (configured : list value) :
  VStr <$> expandStringList configured = List.filter keptString configured
  /\ ("" ∉ expandStringList configured)
  /\ expandStringList (VStr <$> expandStringList configured)
     = expandStringList configured.
Proof.
  rewrite !expandStringList_omap.
  assert (forall l : list string,
            "" ∉ l ->
            omap (fun v => match v with
                           | VStr s => if String.eqb s "" then None else Some s
                           | _ => None
                           end) (VStr <$> l) = l) as Hid.
  { induction l as [|s l IH]; [done|]. intros Hnot.
    apply not_elem_of_cons in Hnot as [Hs Hl]. csimpl.
    destruct (String.eqb_spec s "") as [->|_]; [done|]. by rewrite IH. }
  assert ("" ∉ omap (fun v => match v with
                             | VStr s => if String.eqb s "" then None else Some s
                             | _ => None
                             end) configured) as Hnot.
  { induction configured as [|v configured IH]; csimpl; [by apply not_elem_of_nil|].
    destruct v as [|s| | | | |]; try done.
    destruct (String.eqb_spec s "") as [->|Hs]; [done|].
    apply not_elem_of_cons. split; [congruence|done]. }
  split; [|split; [done|by apply Hid]].
  clear Hid Hnot. induction configured as [|v configured IH]; [done|].
  csimpl. destruct v as [|s| | | | |]; simpl; try done.
  destruct (String.eqb s ""); simpl; [done|]. by rewrite <- IH.
Qed.

(** ** File formats *)

(** X5: composing a file format and flattening it again agree key by key.
    The flattened map gives [file_format] back; for the CSV format each
    optional key holds a pointer to the configured value when that value has
    the type of the key, and nil otherwise; for any other format the map has
    no other key. *)
Theorem fileFormat_compose_then_parse (d : gmap string value) (fileFormat : FileFormat) :
  composeFileFormat d = Ret fileFormat ->
  exists flattened,
    parseFileFormat (Some fileFormat) = Ret flattened
    /\ index flattened "file_format" = index d "file_format"
    /\ (isString (index d "file_format") "csv" = true ->
         (forall k, k ∈ stringFormatKeys ->
            index flattened k = stringPtr (tryString (index d k)))
         /\ (forall k, k ∈ boolFormatKeys ->
            index flattened k = boolPtr (tryBool (index d k))))
    /\ (isString (index d "file_format") "csv" = false ->
         flattened = {["file_format" := index d "file_format"]}).
Proof.
  unfold composeFileFormat.
  destruct (index d "file_format") as [|type_| | | | |] eqn:Htype; try done.
  simpl. destruct (String.eqb type_ "csv") eqn:Hcsv; intros [= <-];
    unfold parseFileFormat; cbn [FileFormat.Type_]; rewrite Hcsv;
    eexists; (split; [reflexivity|]).
  - split; [unfold index; by simplify_map_eq|]. split; [|done]. intros _.
    split; intros k Hk.
    + unfold stringFormatKeys in Hk.
      repeat (apply elem_of_cons in Hk as [->|Hk];
              [unfold index at 1; by simplify_map_eq|]).
      by apply elem_of_nil in Hk.
    + unfold boolFormatKeys in Hk.
      repeat (apply elem_of_cons in Hk as [->|Hk];
              [unfold index at 1; by simplify_map_eq|]).
      by apply elem_of_nil in Hk.
  - split; [unfold index; by simplify_map_eq|]. split; [done|].
    intros _. by rewrite insert_empty.
Qed.

Lemma fileFormat_compose_then_parse_witness :
  exists flattened,
    parseFileFormat (Some {| FileFormat.Type_ := "csv";
                             FileFormat.Sep := Some ",";
                             FileFormat.QuoteAll := None;
                             FileFormat.IncludeHeader := None;
                             FileFormat.EmptyValue := None;
                             FileFormat.Compression := None;
                             FileFormat.DateFormat := None;
                             FileFormat.TimestampFormat := None;
                             FileFormat.IgnoreLeadingWhiteSpace := None;
                             FileFormat.IgnoreTrailingWhiteSpace := None;
                             FileFormat.LineSep := None |}) = Ret flattened
    /\ index flattened "file_format" = index s3Example "file_format".
Proof.
  destruct (fileFormat_compose_then_parse s3Example _ composeFileFormat_s3Example)
    as (flattened & Hparse & Htype & _).
  exists flattened. by split.
Defined.

(** ** Reading a source of a known type *)

Section KnownTags.
Context `{PluginSdk} `{Helpers}.

Ltac eval_tests :=
  repeat match goal with
         | |- context [String.eqb ?a ?b] =>
             let v := eval vm_compute in (String.eqb a b) in
             change (String.eqb a b) with v
         end.

Lemma flattenerOf_known (tag key : string)
    (parse : option Source -> outcome (list (gmap string value))) :
  flattenerOf tag = Some (key, parse) ->
  tag ∈ knownSourceTags /\ key ∈ variantOrder /\ key = (if String.eqb tag "bigquery" then "big_query" else tag).
Proof.
  unfold flattenerOf.
  repeat match goal with
         | |- context [String.eqb tag ?s] =>
             destruct (String.eqb_spec tag s) as [->|?];
             [intros [= <- <-]; split; [|split];
              [apply (bool_decide_unpack _); by vm_compute
              |apply (bool_decide_unpack _); by vm_compute|done]|]
         end.
  done.
Qed.

Lemma resourceSourceRead_known_tag_run (c : Client) (d : ResourceData) (source : Source)
    (key : string) (parse : option Source -> outcome (list (gmap string value))) :
  Client.GetSource c (Id d) = (Some source, None) ->
  (forall k v, setError k v = None) ->
  flattenerOf (Source.Type_ source) = Some (key, parse) ->
  resourceSourceRead c d
  = match parse (Some source) with
    | Ret blocks =>
        (mkResourceData (Id d)
           (<["access_rule" := flattenAccessRules (Source.AccessRules source)]>
           (<["attribute" := flattenAttributes (Source.Attributes source)]>
           (<["labels" := strings (Source.Labels source)]>
           (<[key := maps blocks]>
              (attrs (withNameAndDescription source d)))))),
         Ret tt)
    | Fail e => (withNameAndDescription source d, Fail e)
    | Crash => (withNameAndDescription source d, Crash)
    end.
Proof.
  intros Hget Hset Hflat. unfold flattenerOf in Hflat.
  unfold resourceSourceRead, hread. unfold hbind at 1. rewrite Hget.
  repeat match type of Hflat with
         | context [String.eqb (Source.Type_ source) ?s] =>
             destruct (String.eqb_spec (Source.Type_ source) s) as [Htag|?];
             [injection Hflat as <- <-; rewrite ?Htag|]
         end; try discriminate Hflat.
  all: eval_tests; cbv beta iota delta [when].
  all: unfold hbind, hlift, hret; rewrite !Set_accepted by apply Hset.
  all: match goal with
       | |- context [match ?p with Ret _ => _ | Fail _ => _ | Crash => _ end] =>
           destruct p
       end; rewrite ?Set_accepted by apply Hset; reflexivity.
Qed.

(** X6: for a source whose discriminator is one of the ten known ones, and a
    host that accepts the writes, [resourceSourceRead] writes [name] and
    [description], then the one variant block of the discriminator, then
    [labels], [attribute] and [access_rule], and nothing else: the other
    variant blocks are left as they were, not cleared.  When flattening the
    variant fails, the error is returned with [name] and [description]
    already written. *)
Theorem resourceSourceRead_known_tag (c : Client) (d : ResourceData) (source : Source)
    (key : string) (parse : option Source -> outcome (list (gmap string value))) :
  Client.GetSource c (Id d) = (Some source, None) ->
  (forall k v, setError k v = None) ->
  flattenerOf (Source.Type_ source) = Some (key, parse) ->
  (Source.Type_ source ∈ knownSourceTags)
  /\ (key ∈ variantOrder)
  /\ resourceSourceRead c d
     = match parse (Some source) with
       | Ret blocks =>
           (mkResourceData (Id d)
              (<["access_rule" := flattenAccessRules (Source.AccessRules source)]>
              (<["attribute" := flattenAttributes (Source.Attributes source)]>
              (<["labels" := strings (Source.Labels source)]>
              (<[key := maps blocks]>
                 (attrs (withNameAndDescription source d)))))),
            Ret tt)
       | Fail e => (withNameAndDescription source d, Fail e)
       | Crash => (withNameAndDescription source d, Crash)
       end
  /\ (forall k, k ∈ variantOrder -> k <> key ->
        attrs (resourceSourceRead c d).1 !! k = attrs d !! k).
Proof.
  intros Hget Hset Hflat.
  destruct (flattenerOf_known _ _ _ Hflat) as (Hknown & Hkey & _).
  pose proof (resourceSourceRead_known_tag_run c d source key parse Hget Hset Hflat)
    as Hrun.
  split; [done|split; [done|split; [done|]]].
  intros k Hk Hne. rewrite Hrun.
  apply variant_block_not_common in Hk. unfold commonSourceAttributes in Hk.
  assert (k <> "name" /\ k <> "description" /\ k <> "labels"
          /\ k <> "attribute" /\ k <> "access_rule") as (? & ? & ? & ? & ?).
  { repeat split; intros ->; apply Hk; apply (bool_decide_unpack _); by vm_compute. }
  destruct (parse (Some source)); cbn [fst attrs withNameAndDescription];
    by rewrite ?lookup_insert_ne by done.
Qed.

(** X7: a source of a file-based type (s3, s3a, gcs, local, hdfs) that the
    backend returns without a file format makes [resourceSourceRead] crash
    on the nil file format, after [name] and [description] were written. *)
Theorem resourceSourceRead_without_file_format (c : Client) (d : ResourceData)
    (source : Source) :
  Client.GetSource c (Id d) = (Some source, None) ->
  (forall k v, setError k v = None) ->
  Source.Type_ source ∈ ["s3"; "s3a"; "gcs"; "local"; "hdfs"] ->
  Source.FileFormat source = None ->
  resourceSourceRead c d = (withNameAndDescription source d, Crash).
Proof.
  intros Hget Hset Htag Hformat.
  assert (exists key parse,
             flattenerOf (Source.Type_ source) = Some (key, parse)
             /\ parse (Some source) = Crash) as (key & parse & Hflat & Hparse).
  { repeat (apply elem_of_cons in Htag as [->|Htag];
            [do 2 eexists; split; [reflexivity|];
             unfold parseS3Source, parseS3ASource, parseLocalSource;
             by rewrite Hformat|]).
    by apply elem_of_nil in Htag. }
  rewrite (resourceSourceRead_known_tag_run c d source key parse Hget Hset Hflat).
  by rewrite Hparse.
Qed.

(** X8: a Hive or BigQuery source without access rules, read into a
    configuration with no variant block, composes back to a wire source with
    the same name, description, discriminator and database or path; every
    other variant field is zero.  The BigQuery discriminator [bigquery] goes
    through the block [big_query] and back. *)
Theorem source_read_then_compose (c : Client) (d : ResourceData) (source : Source) :
  Client.GetSource c (Id d) = (Some source, None) ->
  (forall k v, setError k v = None) ->
  Forall (fun k => populated d k = None) variantOrder ->
  Source.AccessRules source = [] ->
  Source.Type_ source = "hive" \/ Source.Type_ source = "bigquery" ->
  exists d',
    resourceSourceRead c d = (d', Ret tt)
    /\ composeSource d'
       = Ret {| Source.ID := 0;
                Source.Name := Source.Name source;
                Source.Description := Source.Description source;
                Source.Type_ := Source.Type_ source;
                Source.Bucket := "";
                Source.Path :=
                  (if String.eqb (Source.Type_ source) "bigquery"
                   then Source.Path source else "");
                Source.FileFormat := None;
                Source.Endpoint := "";
                Source.AccessKey := "";
                Source.SecretKey := "";
                Source.URL := "";
                Source.Schema := "";
                Source.CredentialsProvider := None;
                Source.Database :=
                  (if String.eqb (Source.Type_ source) "hive"
                   then Source.Database source else "");
                Source.BootstrapServers := "";
                Source.SchemaRegistryURL := "";
                Source.KafkaProperties := [];
                Source.Labels := expandLabels d';
                Source.Attributes := expandAttributes d';
                Source.Warehouse := "";
                Source.AccessRules := [] |}.
Proof.
  intros Hget Hset Hnone Hrules Htag.
  unfold variantOrder in Hnone.
  repeat (apply Forall_cons in Hnone as [? Hnone]).
  unfold populated, Get, index in *.
  destruct Htag as [Htag|Htag].
  - rewrite (resourceSourceRead_known_tag_run c d source "hive" parseHiveSource Hget Hset)
      by (by rewrite Htag).
    cbn [parseHiveSource]. eexists; split; [reflexivity|].
    rewrite Htag, Hrules.
    unfold composeSource, Get, GetList, GetString, index.
    cbn [attrs withNameAndDescription].
    repeat (first [rewrite lookup_insert_eq | rewrite lookup_insert_ne by done]).
    repeat match goal with
           | Hk : dropError _ = None |- _ => rewrite ?Hk; clear Hk
           end.
    reflexivity.
  - rewrite (resourceSourceRead_known_tag_run c d source "big_query" parseBigQuerySource
               Hget Hset) by (by rewrite Htag).
    cbn [parseBigQuerySource]. eexists; split; [reflexivity|].
    rewrite Htag, Hrules.
    unfold composeSource, Get, GetList, GetString, index.
    cbn [attrs withNameAndDescription].
    repeat (first [rewrite lookup_insert_eq | rewrite lookup_insert_ne by done]).
    repeat match goal with
           | Hk : dropError _ = None |- _ => rewrite ?Hk; clear Hk
           end.
    reflexivity.
Qed.

(** X20: a file-based source (s3, s3a, gcs, local, hdfs) whose format is not
    CSV and which has no access rules, read into a configuration with no
    variant block, composes back with the same name, description,
    discriminator, path and format type, with the bucket where the type has
    one and the endpoint and keys of an s3a source. *)
Theorem file_source_read_then_compose (c : Client) (d : ResourceData) (source : Source)
    (fileFormat : FileFormat) :
  Client.GetSource c (Id d) = (Some source, None) ->
  (forall k v, setError k v = None) ->
  Forall (fun k => populated d k = None) variantOrder ->
  Source.AccessRules source = [] ->
  Source.Type_ source ∈ ["s3"; "s3a"; "gcs"; "local"; "hdfs"] ->
  Source.FileFormat source = Some fileFormat ->
  FileFormat.Type_ fileFormat <> "csv" ->
  exists d' composed,
    resourceSourceRead c d = (d', Ret tt)
    /\ composeSource d' = Ret composed
    /\ Source.Name composed = Source.Name source
    /\ Source.Description composed = Source.Description source
    /\ Source.Type_ composed = Source.Type_ source
    /\ Source.Path composed = Source.Path source
    /\ Source.FileFormat composed
       = Some {| FileFormat.Type_ := FileFormat.Type_ fileFormat;
                 FileFormat.Sep := None;
                 FileFormat.QuoteAll := None;
                 FileFormat.IncludeHeader := None;
                 FileFormat.EmptyValue := None;
                 FileFormat.Compression := None;
                 FileFormat.DateFormat := None;
                 FileFormat.TimestampFormat := None;
                 FileFormat.IgnoreLeadingWhiteSpace := None;
                 FileFormat.IgnoreTrailingWhiteSpace := None;
                 FileFormat.LineSep := None |}
    /\ (Source.Type_ source ∈ ["s3"; "s3a"; "gcs"] ->
        Source.Bucket composed = Source.Bucket source)
    /\ (Source.Type_ source = "s3a" ->
        Source.Endpoint composed = Source.Endpoint source
        /\ Source.AccessKey composed = Source.AccessKey source
        /\ Source.SecretKey composed = Source.SecretKey source).
Proof.
  intros Hget Hset Hnone Hrules Htag Hformat Hcsv.
  unfold variantOrder in Hnone.
  repeat (apply Forall_cons in Hnone as [? Hnone]).
  unfold populated, Get, index in *.
  apply String.eqb_neq in Hcsv.
  assert (exists key parse,
             flattenerOf (Source.Type_ source) = Some (key, parse)
             /\ key = Source.Type_ source
             /\ (parse = parseS3Source \/ parse = parseS3ASource
                 \/ parse = parseLocalSource))
    as (key & parse & Hflat & Hkey & Hparse).
  { repeat (apply elem_of_cons in Htag as [->|Htag];
            [do 2 eexists; split; [reflexivity|split; [reflexivity|tauto]]|]).
    by apply elem_of_nil in Htag. }
  rewrite (resourceSourceRead_known_tag_run c d source key parse Hget Hset Hflat).
  assert (isString (VStr (FileFormat.Type_ fileFormat)) "csv" = false) as Hnotcsv
    by done.
  repeat (apply elem_of_cons in Htag as [Htag|Htag]);
    [..|by apply elem_of_nil in Htag];
    rewrite Htag in Hflat; injection Hflat as <- <-;
    unfold parseS3Source, parseS3ASource, parseLocalSource, parseFileFormat;
    rewrite Hformat, Hcsv; cbn [obind];
    rewrite insert_empty, <- insert_union_singleton_l;
    (do 2 eexists; split; [reflexivity|]);
    rewrite Hrules;
    unfold composeSource, composeFileFormat, Get, GetList, GetString, index;
    cbn [attrs withNameAndDescription];
    repeat (first [rewrite lookup_insert_eq | rewrite lookup_insert_ne by done]);
    repeat match goal with
           | Hk : dropError _ = None |- _ => rewrite ?Hk; clear Hk
           end;
    cbn [from_option id flattenAccessRules maps fold_left fmap list_fmap
         forEach obind expandAccessRules expandSingleMap dropError assertString];
    repeat (first [rewrite lookup_insert_eq | rewrite lookup_insert_ne by done]);
    cbn [from_option id obind assertString]; rewrite Hnotcsv;
    repeat (first [rewrite lookup_insert_eq | rewrite lookup_insert_ne by done]);
    cbn [from_option id obind assertString];
    (split; [reflexivity|]); rewrite Htag;
    repeat split; try done; intros Hother; try discriminate Hother;
    exfalso; revert Hother; apply (bool_decide_unpack _); by vm_compute.
Qed.

End KnownTags.

Lemma resourceSourceRead_known_tag_witness :
  (@resourceSourceRead acceptAll sampleHelpers (backendWith hiveSource) (emptyData "11")).2
  = Ret tt.
Proof.
  destruct (@resourceSourceRead_known_tag acceptAll sampleHelpers
              (backendWith hiveSource) (emptyData "11") hiveSource "hive"
              (@parseHiveSource) eq_refl (fun _ _ => eq_refl) eq_refl)
    as (_ & _ & Hrun & _).
  by rewrite Hrun.
Defined.

Lemma resourceSourceRead_without_file_format_witness :
  (@resourceSourceRead acceptAll sampleHelpers (backendWith bareS3Source) (emptyData "12")).2
  = Crash.
Proof.
  rewrite (@resourceSourceRead_without_file_format acceptAll sampleHelpers
             (backendWith bareS3Source) (emptyData "12") bareS3Source);
    [reflexivity|reflexivity|reflexivity| |reflexivity].
  apply (bool_decide_unpack _). by vm_compute.
Defined.

Lemma source_read_then_compose_witness :
  exists d',
    @resourceSourceRead acceptAll sampleHelpers (backendWith hiveSource) (emptyData "11")
    = (d', Ret tt)
    /\ omapo variantFields (@composeSource sampleHelpers d')
       = Ret (variantFields hiveSource).
Proof.
  destruct (@source_read_then_compose acceptAll sampleHelpers (backendWith hiveSource)
              (emptyData "11") hiveSource) as (d' & Hread & Hcompose).
  - reflexivity.
  - reflexivity.
  - repeat constructor.
  - reflexivity.
  - by left.
  - exists d'. split; [done|]. by rewrite Hcompose.
Defined.

(** ** Masking rules and access rules *)

Lemma fold_left_snoc {A B} (g : A -> B) (l : list A) (acc : list B) :
  fold_left (fun vs v => vs ++ [g v]) l acc = acc ++ (g <$> l).
Proof.
  revert acc. induction l as [|x l IH]; intros acc; simpl.
  - by rewrite app_nil_r.
  - by rewrite IH, <- app_assoc.
Qed.

Lemma forEach_fmap_append {A B C} (body : list A -> B -> outcome (list A))
    (h : C -> B) (g : C -> list A) (l : list C) (acc : list A) :
  (forall res x, x ∈ l -> body res (h x) = Ret (res ++ g x)) ->
  forEach body (h <$> l) acc = Ret (acc ++ concat (g <$> l)).
Proof.
  revert acc. induction l as [|x l IH]; intros acc Hbody; simpl.
  - by rewrite app_nil_r.
  - rewrite Hbody by left. simpl. rewrite IH.
    + by rewrite <- app_assoc.
    + intros res y Hy. apply Hbody. by right.
Qed.

Lemma forEach_length {A B} (body : list A -> B -> outcome (list A)) (n : nat)
    (l : list B) (acc res : list A) :
  (forall acc x res, body acc x = Ret res -> length res <= length acc + n) ->
  forEach body l acc = Ret res ->
  length res <= length acc + n * length l.
Proof.
  intros Hbody. revert acc. induction l as [|x l IH]; intros acc; simpl.
  - intros [= ->]. lia.
  - destruct (body acc x) as [acc'| |] eqn:Hx; simpl; [|done|done].
    intros Hrest. apply Hbody in Hx. apply IH in Hrest. lia.
Qed.

Lemma concat_optionList {A B} (f : A -> option B) (l : list A) :
  concat ((fun x => optionList (f x)) <$> l) = omap f l.
Proof.
  induction l as [|x l IH]; [done|]. csimpl. rewrite IH. by destruct (f x).
Qed.

Lemma omap_id_on {A} (f : A -> option A) (l : list A) :
  Forall (fun x => f x = Some x) l -> omap f l = l.
Proof.
  induction 1 as [|x l Hx _ IH]; [done|]. csimpl. by rewrite Hx, IH.
Qed.

Lemma flatternMaskingRules_expand (maskingRules : list MaskingRule) :
  exists entries,
    flatternMaskingRules maskingRules = VList entries
    /\ expandMaskingRules entries = Ret (omap flattenedMaskingRule maskingRules).
Proof.
  unfold flatternMaskingRules, maps. rewrite fold_left_snoc, app_nil_l.
  eexists; split; [reflexivity|].
  unfold expandMaskingRules. rewrite <- list_fmap_compose.
  rewrite (forEach_fmap_append _ _ (fun rule => optionList (flattenedMaskingRule rule))).
  - by rewrite app_nil_l, concat_optionList.
  - intros res [type_ expression column] _.
    unfold flattenedMaskingRule, compose. cbn [MaskingRule.Type_ MaskingRule.Expression
      MaskingRule.Column mapOrNil].
    destruct (String.eqb_spec type_ "filter") as [->|Hfilter].
    + change (String.eqb "filter" "mask") with false. cbv iota.
      unfold index, maps. rewrite lookup_insert_eq, lookup_insert_ne by done.
      rewrite lookup_empty. simpl.
      unfold composeFilterMaskingRule, index. by rewrite lookup_insert_eq.
    + destruct (String.eqb_spec type_ "mask") as [->|Hmask].
      * unfold index, maps. rewrite lookup_insert_ne by done.
        rewrite lookup_empty, lookup_insert_eq. simpl.
        unfold composeMaskMaskingRule, index.
        rewrite lookup_insert_ne by done. by rewrite !lookup_insert_eq.
      * unfold index. rewrite !lookup_empty. simpl. by rewrite app_nil_r.
Qed.

(** X9: masking rules that are flattened and expanded again come back in
    order: a mask as it was, a filter with its expression (its column is not
    kept), and a rule of any other type not at all.  A list of masks and of
    filters without column round-trips unchanged. *)
Theorem maskingRules_roundtrip (maskingRules : list MaskingRule) :
  exists entries,
    flatternMaskingRules maskingRules = VList entries
    /\ expandMaskingRules entries = Ret (omap flattenedMaskingRule maskingRules)
    /\ (Forall (fun rule =>
                  MaskingRule.Type_ rule = "mask"
                  \/ (MaskingRule.Type_ rule = "filter" /\ MaskingRule.Column rule = ""))
          maskingRules ->
        expandMaskingRules entries = Ret maskingRules).
Proof.
  destruct (flatternMaskingRules_expand maskingRules) as (entries & Hflat & Hexpand).
  exists entries. split; [done|split; [done|]].
  intros Hwell. rewrite Hexpand. f_equal. apply omap_id_on.
  eapply Forall_impl; [exact Hwell|]. intros [type_ expression column]. simpl.
  unfold flattenedMaskingRule. simpl.
  intros [->|[-> ->]]; reflexivity.
Qed.

Lemma maskingRules_roundtrip_witness :
  exists entries,
    flatternMaskingRules
      [MaskingRule.mk "mask" "sha2(email)" "email"; MaskingRule.mk "filter" "age > 18" ""]
    = VList entries
    /\ expandMaskingRules entries
       = Ret [MaskingRule.mk "mask" "sha2(email)" "email";
              MaskingRule.mk "filter" "age > 18" ""].
Proof.
  destruct (maskingRules_roundtrip
              [MaskingRule.mk "mask" "sha2(email)" "email";
               MaskingRule.mk "filter" "age > 18" ""])
    as (entries & Hflat & _ & Hback).
  exists entries. split; [done|]. apply Hback.
  constructor; [by left|]. constructor; [right; by split|]. constructor.
Defined.

(** X10: an entry of a masking-rule list may hold a filter block and a mask
    block at once; it then expands to two rules, the filter first.  So the
    expanded list can be longer than the configured one, but never more than
    twice as long. *)
Theorem expandMaskingRules_two_per_entry :
  (forall entries rules,
      expandMaskingRules entries = Ret rules -> length rules <= 2 * length entries)
  /\ (forall (filter mask : gmap string value) (filterExpression column expression : string),
      index filter "expression" = VStr filterExpression ->
      index mask "column" = VStr column ->
      index mask "expression" = VStr expression ->
      expandMaskingRules
        [VMap (<["mask" := VList [VMap mask]]> (<["filter" := VList [VMap filter]]> ∅))]
      = Ret [MaskingRule.mk "filter" filterExpression "";
             MaskingRule.mk "mask" expression column]).
Proof.
  split.
  - intros entries rules Hexpand. unfold expandMaskingRules in Hexpand.
    apply (forEach_length _ 2) in Hexpand; [simpl in Hexpand; lia|].
    clear. intros acc x res.
    unfold composeFilterMaskingRule, composeMaskMaskingRule, obind.
    repeat case_match; intros ?; simplify_eq;
      rewrite ?length_app; simpl; lia.
  - intros filter mask filterExpression column expression Hfilter Hcolumn Hexpression.
    unfold expandMaskingRules. simpl. unfold index at 1.
    rewrite lookup_insert_ne by done. rewrite lookup_insert_eq. simpl.
    unfold composeFilterMaskingRule. rewrite Hfilter. simpl.
    unfold index at 1. rewrite lookup_insert_eq. simpl.
    unfold composeMaskMaskingRule. by rewrite Hcolumn, Hexpression.
Qed.

Lemma expandMaskingRules_two_per_entry_witness :
  expandMaskingRules
    [VMap (<["mask" := VList [VMap (<["expression" := VStr "sha2(email)"]>
                                   (<["column" := VStr "email"]> ∅))]]>
          (<["filter" := VList [VMap (<["expression" := VStr "age > 18"]> ∅)]]> ∅))]
  = Ret [MaskingRule.mk "filter" "age > 18" "";
         MaskingRule.mk "mask" "sha2(email)" "email"].
Proof.
  apply (proj2 expandMaskingRules_two_per_entry); reflexivity.
Defined.

Section AccessRules.
Context `{Helpers}.

(** X11: access rules round-trip through [flattenAccessRules] and
    [expandAccessRules] whenever their principals do through the two
    principal functions: resource and principals come back as they were, and
    the masking rules as in X9. *)
Theorem accessRules_roundtrip (accessRules : list AccessRule) :
  Forall (fun rule =>
            exists principals,
              flattenPrincipalIds (AccessRule.Principals rule) = VList principals
              /\ expandPrincipalIds principals = Ret (AccessRule.Principals rule))
    accessRules ->
  exists entries,
    flattenAccessRules accessRules = VList entries
    /\ expandAccessRules entries
       = Ret ((fun rule =>
                {| AccessRule.Resource := AccessRule.Resource rule;
                   AccessRule.Principals := AccessRule.Principals rule;
                   AccessRule.MaskingRules :=
                     omap flattenedMaskingRule (AccessRule.MaskingRules rule) |})
              <$> accessRules).
Proof.
  intros Hprincipals.
  unfold flattenAccessRules, maps. rewrite fold_left_snoc, app_nil_l.
  eexists; split; [reflexivity|].
  unfold expandAccessRules. rewrite <- list_fmap_compose.
  rewrite (forEach_fmap_append _ _ (fun rule =>
             [{| AccessRule.Resource := AccessRule.Resource rule;
                 AccessRule.Principals := AccessRule.Principals rule;
                 AccessRule.MaskingRules :=
                   omap flattenedMaskingRule (AccessRule.MaskingRules rule) |}])).
  - rewrite app_nil_l. f_equal. clear.
    induction accessRules as [|rule accessRules IH]; [done|]. csimpl. by rewrite IH.
  - intros res rule Hrule.
    rewrite Forall_forall in Hprincipals.
    destruct (Hprincipals rule Hrule) as (principals & Hflat & Hexpand).
    destruct (flatternMaskingRules_expand (AccessRule.MaskingRules rule))
      as (entries & Hrules & Hback).
    unfold compose. cbn [mapOrNil]. unfold index.
    rewrite lookup_insert_ne by done. rewrite lookup_insert_eq.
    cbn [from_option id]. rewrite Hflat. cbn [assertList obind]. rewrite Hexpand.
    cbn [obind]. rewrite lookup_insert_eq. cbn [from_option id]. rewrite Hrules.
    cbn [assertList obind]. rewrite Hback. cbn [obind].
    rewrite lookup_insert_ne by done. rewrite lookup_insert_ne by done.
    by rewrite lookup_insert_eq.
Qed.

End AccessRules.

Lemma accessRules_roundtrip_witness :
  exists entries,
    @flattenAccessRules sampleHelpers
      [AccessRule.mk "customers" [] [MaskingRule.mk "mask" "sha2(email)" "email"]]
    = VList entries
    /\ @expandAccessRules sampleHelpers entries
       = Ret [AccessRule.mk "customers" [] [MaskingRule.mk "mask" "sha2(email)" "email"]].
Proof.
  apply (@accessRules_roundtrip sampleHelpers
           [AccessRule.mk "customers" [] [MaskingRule.mk "mask" "sha2(email)" "email"]]).
  repeat constructor. by exists [].
Defined.

(** ** Creating and updating *)

Section Writing.
Context `{Helpers}.

Lemma composeSource_without_block (d : ResourceData) :
  Forall (fun k => populated d k = None) variantOrder ->
  composeSource d
  = obind (expandAccessRules (GetList d "access_rule"))
      (fun _ => Fail "Invalid source type").
Proof.
  intros Hnone. unfold variantOrder in Hnone.
  repeat (apply Forall_cons in Hnone as [? Hnone]).
  unfold composeSource, populated in *.
  destruct (expandAccessRules _); simpl; [|done|done].
  repeat match goal with
         | Hk : dropError _ = None |- _ => rewrite Hk; clear Hk
         end.
  done.
Qed.

(** X12: creating or updating a source fails before the backend is asked
    whenever composition fails: the error of [composeSource] is returned and
    the resource data are unchanged, whatever the backend would answer.  For
    a configuration without a populated variant block whose access rules
    expand, that error is [Invalid source type]. *)
Theorem source_write_fails_fast (d : ResourceData) :
  (forall (c : ClientWrites) (e : string),
      composeSource d = Fail e ->
      resourceSourceCreate c d = (d, Fail e)
      /\ resourceSourceUpdate c d = (d, Fail e))
  /\ (forall (c : ClientWrites) (accessRules : list AccessRule),
      Forall (fun k => populated d k = None) variantOrder ->
      expandAccessRules (GetList d "access_rule") = Ret accessRules ->
      resourceSourceCreate c d = (d, Fail "Invalid source type")
      /\ resourceSourceUpdate c d = (d, Fail "Invalid source type")).
Proof.
  assert (forall (c : ClientWrites) (e : string),
      composeSource d = Fail e ->
      resourceSourceCreate c d = (d, Fail e)
      /\ resourceSourceUpdate c d = (d, Fail e)) as Hfast.
  { intros c e Hcompose.
    unfold resourceSourceCreate, resourceSourceUpdate, hbind, hread.
    by rewrite Hcompose. }
  split; [done|].
  intros c accessRules Hnone Hrules. apply Hfast.
  by rewrite (composeSource_without_block d Hnone), Hrules.
Qed.

(** X13: a successful create stores the backend's identifier as the resource
    id in decimal and changes no attribute.  For a non-negative identifier
    that fits an [int] the id passes the identifier validation and parses
    back to the identifier.  An error of the backend is returned with the
    resource data unchanged. *)
Theorem create_assigns_decimal_id (c : ClientWrites) (d : ResourceData) :
  (forall created,
      ClientWrites.CreateEntity c (buildEntity d) = (Some created, None) ->
      resourceEntityCreate c d
      = (mkResourceData (Itoa (Entity.ID created)) (attrs d), Ret tt))
  /\ (forall source created,
      composeSource d = Ret source ->
      ClientWrites.CreateSource c source = (Some created, None) ->
      resourceSourceCreate c d
      = (mkResourceData (Itoa (Source.ID created)) (attrs d), Ret tt))
  /\ (forall id : Z,
      (0 <= id <= maxInt)%Z ->
      validateAnamlIdentifier (VStr (Itoa id)) = true
      /\ Atoi (Itoa id) = (id, None))
  /\ (forall answer e,
      ClientWrites.CreateEntity c (buildEntity d) = (answer, Some e) ->
      resourceEntityCreate c d = (d, Fail e))
  /\ (forall source answer e,
      composeSource d = Ret source ->
      ClientWrites.CreateSource c source = (answer, Some e) ->
      resourceSourceCreate c d = (d, Fail e)).
Proof.
  split; [|split; [|split; [|split]]].
  - intros created Hcreate.
    unfold resourceEntityCreate, hbind, hread. by rewrite Hcreate.
  - intros source created Hcompose Hcreate.
    unfold resourceSourceCreate, hbind. by rewrite Hcompose, Hcreate.
  - intros id Hid. split.
    + apply Itoa_pattern. lia.
    + apply Atoi_Itoa. unfold minInt. lia.
  - intros answer e Hcreate.
    unfold resourceEntityCreate, hbind, hread. by rewrite Hcreate.
  - intros source answer e Hcompose Hcreate.
    unfold resourceSourceCreate, hbind. by rewrite Hcompose, Hcreate.
Qed.

End Writing.

Lemma source_write_fails_fast_witness :
  @resourceSourceCreate sampleHelpers (creatingBackend 5) (emptyData "")
  = (emptyData "", Fail "Invalid source type").
Proof.
  apply (proj2 (@source_write_fails_fast sampleHelpers (emptyData ""))
           (creatingBackend 5) []).
  - repeat constructor.
  - reflexivity.
Defined.

Lemma create_assigns_decimal_id_witness :
  @resourceSourceCreate sampleHelpers (creatingBackend 5) s3ExampleData
  = (mkResourceData "5" (attrs s3ExampleData), Ret tt).
Proof.
  destruct (@create_assigns_decimal_id sampleHelpers (creatingBackend 5) s3ExampleData)
    as (_ & Hsource & _).
  destruct (@composeSource sampleHelpers s3ExampleData) as [source| |] eqn:Hcompose;
    [|by vm_compute in Hcompose|by vm_compute in Hcompose].
  exact (Hsource source _ eq_refl eq_refl).
Defined.

(** ** Reading entities and clusters *)

Section EntityReads.
Context `{PluginSdk} `{Helpers}.

Lemma resourceEntityRead_composite_run (c : Client) (d : ResourceData)
    (entity : Entity) (entities : list Z) :
  (forall k v, setError k v = None) ->
  Client.GetEntity c (Id d) = (Some entity, None) ->
  Entity.DefaultColumn entity = None ->
  Entity.Entities entity = Some entities ->
  resourceEntityRead c d
  = (mkResourceData (Id d)
       (<["attribute" := flattenAttributes (Entity.Attributes entity)]>
       (<["labels" := strings (Entity.Labels entity)]>
       (<["entities" := strings (identifierList entities)]>
       (<["required_type" := VNil]>
       (<["default_column" := VNil]>
       (<["description" := VStr (Entity.Description entity)]>
       (<["name" := VStr (Entity.Name entity)]> (attrs d)))))))),
     Ret tt).
Proof.
  intros Hset Hget Hcolumn Hentities.
  unfold resourceEntityRead, hbind, hread, hret.
  rewrite Hget, Hcolumn, Hentities.
  by rewrite !Set_accepted by apply Hset.
Qed.

Lemma resourceEntityRead_base_run (c : Client) (d : ResourceData)
    (entity : Entity) (defaultColumn : string) :
  (forall k v, setError k v = None) ->
  Client.GetEntity c (Id d) = (Some entity, None) ->
  Entity.DefaultColumn entity = Some defaultColumn ->
  Entity.Entities entity = None ->
  resourceEntityRead c d
  = (mkResourceData (Id d)
       (<["attribute" := flattenAttributes (Entity.Attributes entity)]>
       (<["labels" := strings (Entity.Labels entity)]>
       (<["entities" := VNil]>
       (<["required_type" :=
            match Entity.RequiredType entity with
            | Some (VStr requiredType) => VStr requiredType
            | Some _ => VStr "Complex Type"
            | None => VNil
            end]>
       (<["default_column" := VPtr (VStr defaultColumn)]>
       (<["description" := VStr (Entity.Description entity)]>
       (<["name" := VStr (Entity.Name entity)]> (attrs d)))))))),
     Ret tt).
Proof.
  intros Hset Hget Hcolumn Hentities.
  unfold resourceEntityRead, hbind, hread, hret.
  rewrite Hget, Hcolumn, Hentities.
  destruct (Entity.RequiredType entity) as [[| | | | | |]|]; simpl;
    by rewrite !Set_accepted by apply Hset.
Qed.

(** X14: reading a base entity (a default column, no entity list) writes
    [default_column] as the pointer it received, clears [entities], and
    writes [required_type] as the backend's string, as the text
    [Complex Type] when the backend's required type is not a string, and as
    nil when there is none.  An entity with neither a default column nor an
    entity list leaves all three attributes as they were. *)
Theorem resourceEntityRead_base (c : Client) (d : ResourceData) (entity : Entity) :
  (forall k v, setError k v = None) ->
  Client.GetEntity c (Id d) = (Some entity, None) ->
  Entity.Entities entity = None ->
  (forall defaultColumn,
      Entity.DefaultColumn entity = Some defaultColumn ->
      (resourceEntityRead c d).2 = Ret tt
      /\ attrs (resourceEntityRead c d).1 !! "default_column"
         = Some (VPtr (VStr defaultColumn))
      /\ attrs (resourceEntityRead c d).1 !! "entities" = Some VNil
      /\ attrs (resourceEntityRead c d).1 !! "required_type"
         = Some match Entity.RequiredType entity with
                | Some (VStr requiredType) => VStr requiredType
                | Some _ => VStr "Complex Type"
                | None => VNil
                end)
  /\ (Entity.DefaultColumn entity = None ->
      (resourceEntityRead c d).2 = Ret tt
      /\ forall k, k ∈ ["default_column"; "required_type"; "entities"] ->
           attrs (resourceEntityRead c d).1 !! k = attrs d !! k).
Proof.
  intros Hset Hget Hentities. split.
  - intros defaultColumn Hcolumn.
    rewrite (resourceEntityRead_base_run c d entity defaultColumn Hset Hget Hcolumn
               Hentities).
    cbn [fst snd attrs]. repeat split; by simplify_map_eq.
  - intros Hcolumn.
    unfold resourceEntityRead, hbind, hread, hret.
    rewrite Hget, Hcolumn, Hentities.
    rewrite !Set_accepted by apply Hset. cbn [fst snd attrs].
    split; [done|]. intros k Hk.
    repeat (apply elem_of_cons in Hk as [->|Hk]; [by simplify_map_eq|]).
    by apply elem_of_nil in Hk.
Qed.

(** X15: an entity read from the backend and built again from the resulting
    configuration keeps its shape.  A composite entity with identifiers in
    the range of [int] comes back composite with the same name, description
    and identifiers.  A base entity with a non-empty default column comes
    back base with that column, and with its required type when that is a
    non-empty string; a required type that is not a string comes back as the
    string [Complex Type]. *)
Theorem entity_read_then_build (c : Client) (d : ResourceData) (entity : Entity) :
  (forall k v, setError k v = None) ->
  Client.GetEntity c (Id d) = (Some entity, None) ->
  (forall entities,
      Entity.DefaultColumn entity = None ->
      Entity.Entities entity = Some entities ->
      Forall (fun i => (minInt <= i <= maxInt)%Z) entities ->
      let rebuilt := buildEntity (resourceEntityRead c d).1 in
      Entity.Name rebuilt = Entity.Name entity
      /\ Entity.Description rebuilt = Entity.Description entity
      /\ Entity.Type_ rebuilt = "composite"
      /\ Entity.DefaultColumn rebuilt = None
      /\ Entity.RequiredType rebuilt = None
      /\ Entity.Entities rebuilt = Some entities)
  /\ (forall defaultColumn,
      Entity.DefaultColumn entity = Some defaultColumn ->
      Entity.Entities entity = None ->
      defaultColumn <> "" ->
      let rebuilt := buildEntity (resourceEntityRead c d).1 in
      Entity.Name rebuilt = Entity.Name entity
      /\ Entity.Description rebuilt = Entity.Description entity
      /\ Entity.Type_ rebuilt = "base"
      /\ Entity.DefaultColumn rebuilt = Some defaultColumn
      /\ Entity.Entities rebuilt = None
      /\ Entity.RequiredType rebuilt
         = match Entity.RequiredType entity with
           | Some (VStr requiredType) =>
               if String.eqb requiredType "" then None else Some (VStr requiredType)
           | Some _ => Some (VStr "Complex Type")
           | None => None
           end).
Proof.
  intros Hset Hget. split.
  - intros entities Hcolumn Hentities Hrange rebuilt. subst rebuilt.
    rewrite (resourceEntityRead_composite_run c d entity entities Hset Hget Hcolumn
               Hentities).
    cbn [fst]. set (d' := mkResourceData _ _).
    assert (GetString d' "default_column" = "") as Hdefault.
    { unfold GetString, d'. cbn [attrs]. by simplify_map_eq. }
    assert (GetString d' "name" = Entity.Name entity) as Hname.
    { unfold GetString, d'. cbn [attrs]. by simplify_map_eq. }
    assert (GetString d' "description" = Entity.Description entity) as Hdescription.
    { unfold GetString, d'. cbn [attrs]. by simplify_map_eq. }
    assert (GetList d' "entities" = VStr <$> identifierList entities) as Hlist.
    { unfold GetList, d'. cbn [attrs]. by simplify_map_eq. }
    unfold buildEntity. rewrite Hdefault, Hname, Hdescription, Hlist.
    change (negb (String.eqb "" "")) with false. cbv iota.
    cbn [Entity.Name Entity.Description Entity.Type_ Entity.DefaultColumn
         Entity.Entities Entity.RequiredType].
    repeat split. by rewrite (expandIdentifierList_identifierList _ Hrange).
  - intros defaultColumn Hcolumn Hentities Hne rebuilt. subst rebuilt.
    rewrite (resourceEntityRead_base_run c d entity defaultColumn Hset Hget Hcolumn
               Hentities).
    cbn [fst]. set (d' := mkResourceData _ _).
    assert (GetString d' "default_column" = defaultColumn) as Hdefault.
    { unfold GetString, d'. cbn [attrs]. by simplify_map_eq. }
    assert (GetString d' "name" = Entity.Name entity) as Hname.
    { unfold GetString, d'. cbn [attrs]. by simplify_map_eq. }
    assert (GetString d' "description" = Entity.Description entity) as Hdescription.
    { unfold GetString, d'. cbn [attrs]. by simplify_map_eq. }
    assert (GetOk d' "required_type"
            = match Entity.RequiredType entity with
              | Some (VStr requiredType) =>
                  (VStr requiredType, negb (String.eqb requiredType ""))
              | Some _ => (VStr "Complex Type", true)
              | None => (VStr "", false)
              end) as Hrequired.
    { unfold GetOk, GetString, d'. cbn [attrs].
      rewrite lookup_insert_ne by done. rewrite lookup_insert_ne by done.
      rewrite lookup_insert_ne by done. rewrite lookup_insert_eq.
      by destruct (Entity.RequiredType entity) as [[| | | | | |]|]. }
    unfold buildEntity. rewrite Hdefault, Hname, Hdescription, Hrequired.
    destruct (String.eqb_spec defaultColumn "") as [|_]; [done|].
    cbn [negb Entity.Name Entity.Description Entity.Type_ Entity.DefaultColumn
         Entity.Entities Entity.RequiredType].
    repeat split.
    destruct (Entity.RequiredType entity) as [[|requiredType| | | | |]|]; try done.
    by destruct (String.eqb requiredType "").
Qed.

(** X16: when the cluster is found, [dataSourceClusterRead] takes the
    decimal form of its identifier as the id before it writes [name] and
    [description].  If the host rejects the write of [name], the error is
    returned with the id already replaced. *)
Theorem dataSourceClusterRead_found (c : Client) (d : ResourceData) (cluster : Cluster) :
  Client.FindCluster c (GetString d "name") = (Some cluster, None) ->
  ((forall k v, setError k v = None) ->
     dataSourceClusterRead c d
     = (mkResourceData (Itoa (Cluster.ID cluster))
          (<["description" := VStr (Cluster.Description cluster)]>
          (<["name" := VStr (Cluster.Name cluster)]> (attrs d))),
        Ret tt))
  /\ (forall e,
     setError "name" (VStr (Cluster.Name cluster)) = Some e ->
     dataSourceClusterRead c d
     = (mkResourceData (Itoa (Cluster.ID cluster)) (attrs d), Fail e)).
Proof.
  intros Hfind. split.
  - intros Hset. unfold dataSourceClusterRead, hbind, hread, hret. rewrite Hfind.
    unfold SetId. by rewrite !Set_accepted by apply Hset.
  - intros e Hreject. unfold dataSourceClusterRead, hbind, hread, hret. rewrite Hfind.
    unfold SetId, Set_. cbn [Id attrs]. by rewrite Hreject.
Qed.

End EntityReads.

Lemma resourceEntityRead_base_witness :
  attrs (@resourceEntityRead acceptAll sampleHelpers
           (catalogueBackend baseEntity sampleCluster) (emptyData "8")).1
    !! "required_type"
  = Some (VStr "Complex Type").
Proof.
  destruct (@resourceEntityRead_base acceptAll sampleHelpers
              (catalogueBackend baseEntity sampleCluster) (emptyData "8") baseEntity
              (fun _ _ => eq_refl) eq_refl eq_refl) as [Hbase _].
  destruct (Hbase "customer_id" eq_refl) as (_ & _ & _ & Hrequired).
  exact Hrequired.
Defined.

Lemma entity_read_then_build_witness :
  Entity.Entities
    (@buildEntity sampleHelpers
       (@resourceEntityRead acceptAll sampleHelpers
          (catalogueBackend compositeEntity sampleCluster) (emptyData "7")).1)
  = Some [1; 2; 3]%Z.
Proof.
  destruct (@entity_read_then_build acceptAll sampleHelpers
              (catalogueBackend compositeEntity sampleCluster) (emptyData "7")
              compositeEntity (fun _ _ => eq_refl) eq_refl) as [Hcomposite _].
  apply (Hcomposite [1; 2; 3]%Z eq_refl eq_refl).
  repeat (constructor; [vm_compute; split; discriminate|]). constructor.
Defined.

Lemma dataSourceClusterRead_found_witness :
  @dataSourceClusterRead acceptAll
    (catalogueBackend compositeEntity sampleCluster) (emptyData "")
  = (mkResourceData "4"
       (<["description" := VStr "nightly jobs"]> (<["name" := VStr "batch"]> ∅)),
     Ret tt).
Proof.
  apply (proj1 (@dataSourceClusterRead_found acceptAll
                  (catalogueBackend compositeEntity sampleCluster) (emptyData "")
                  sampleCluster eq_refl)).
  reflexivity.
Defined.

(** ** The role vocabulary *)

Lemma tableImage_in (table : list (string * string)) (token image : string) :
  tableImage table token = Some image -> image ∈ table.*2.
Proof.
  induction table as [|[k v] table IH]; [done|].
  rewrite fmap_cons, elem_of_cons. cbn [tableImage snd]. destruct (String.eqb token k).
  - intros [= ->]. by left.
  - intros Himage. right. by apply IH.
Qed.

Lemma Forall_omap_image {A B} (P : B -> Prop) (f : A -> option B) (l : list A) :
  (forall x y, f x = Some y -> P y) -> Forall P (omap f l).
Proof.
  intros Himage. induction l as [|x l IH]; csimpl; [constructor|].
  destruct (f x) as [y|] eqn:Hx; [|done]. constructor; [by eapply Himage|done].
Qed.

Lemma omap_length_all {A B} (f : A -> option B) (l : list A) :
  Forall (fun x => is_Some (f x)) l -> length (omap f l) = length l.
Proof.
  induction 1 as [|x l [y Hx] _ IH]; [done|]. csimpl. rewrite Hx. simpl. by rewrite IH.
Qed.

(** X17: role mapping and the vocabulary of [validRoles].  Whatever the
    backend sends, [mapRolesToFrontend] only yields tokens of the
    vocabulary.  On a list of vocabulary tokens [mapRolesToBackend] drops
    nothing, and it sends different tokens to different backend roles. *)
Theorem roles_and_vocabulary :
  (forall backend, Forall (fun token => token ∈ validRoles) (mapRolesToFrontend backend))
  /\ (forall frontend,
        Forall (fun token => token ∈ validRoles) frontend ->
        length (mapRolesToBackend frontend) = length frontend)
  /\ (forall a b,
        a ∈ validRoles -> b ∈ validRoles ->
        mapRolesToBackend [a] = mapRolesToBackend [b] -> a = b).
Proof.
  split; [|split].
  - intros backend. rewrite mapRolesToFrontend_table.
    apply Forall_omap_image. intros role token Himage.
    by apply tableImage_in in Himage.
  - intros frontend Hvalid. rewrite mapRolesToBackend_table.
    apply omap_length_all. eapply Forall_impl; [exact Hvalid|].
    intros token Htoken. unfold validRoles in Htoken.
    repeat (apply elem_of_cons in Htoken as [->|Htoken]; [by eexists|]).
    by apply elem_of_nil in Htoken.
  - intros a b Ha Hb. unfold validRoles in Ha, Hb.
    repeat (apply elem_of_cons in Ha as [->|Ha];
            [repeat (apply elem_of_cons in Hb as [->|Hb];
                     [by vm_compute|]);
             by apply elem_of_nil in Hb|]).
    by apply elem_of_nil in Ha.
Qed.

Lemma roles_and_vocabulary_witness :
  length (mapRolesToBackend ["author"; "run_event_store"; "view_reports"]) = 3.
Proof.
  apply (proj1 (proj2 roles_and_vocabulary) ["author"; "run_event_store"; "view_reports"]).
  repeat (constructor; [apply (bool_decide_unpack _); by vm_compute|]). constructor.
Defined.

(** ** Nested blocks of a composed source *)

Section NestedBlocks.
Context `{Helpers}.

Ltac first_block_of d :=
  unfold variantOrder, firstPopulated;
  repeat match goal with
         | |- match populated d ?k with _ => _ end = _ -> _ =>
             let E := fresh "Hblock" in
             destruct (populated d k) eqn:E; [intros ?; simplify_eq|]
         end;
  try (intros ?; discriminate).

Ltac use_blocks :=
  repeat match goal with
         | Hk : dropError _ = _ |- _ => rewrite Hk; clear Hk
         end.

(** X18: although the schema declares [credentials_provider] optional, a
    JDBC or Snowflake block without it does not compose: [composeSource]
    returns [Value is null] when the key is absent and [Array is empty] when
    the block list is empty, and produces no wire source. *)
Theorem composeSource_requires_credentials (d : ResourceData) (k : string)
    (block : gmap string value) (accessRules : list AccessRule) :
  firstPopulated d variantOrder = Some (k, block) ->
  k = "jdbc" \/ k = "snowflake" ->
  expandAccessRules (GetList d "access_rule") = Ret accessRules ->
  (index block "credentials_provider" = VNil ->
     composeSource d = Fail "Value is null")
  /\ (index block "credentials_provider" = VList [] ->
     composeSource d = Fail "Array is empty").
Proof.
  intros Hfirst Hk Hrules. revert Hfirst. first_block_of d.
  all: destruct Hk as [Hk|Hk]; try discriminate Hk.
  all: unfold composeSource, populated in *; rewrite Hrules; cbn [obind]; use_blocks.
  all: split; intros Hcredentials; by rewrite Hcredentials.
Qed.

(** X19: a Kafka block with its [property] list, a list of maps as the host
    delivers it.  When every property composes, [composeSource] yields a
    Kafka source with the bootstrap servers and the schema registry of the
    block and the composed properties in their order, none for an empty
    list.  When a property fails to compose after the ones before it
    composed, [composeSource] returns that error and no wire source. *)
Theorem composeSource_kafka_properties (d : ResourceData) (block : gmap string value)
    (accessRules : list AccessRule) (properties : list (gmap string value))
    (bootstrapServers schemaRegistryURL : string) :
  firstPopulated d variantOrder = Some ("kafka", block) ->
  expandAccessRules (GetList d "access_rule") = Ret accessRules ->
  index block "property" = maps properties ->
  index block "bootstrap_servers" = VStr bootstrapServers ->
  index block "schema_registry_url" = VStr schemaRegistryURL ->
  (forall sensitives,
     Forall2 (fun prop sa => composeSensitiveAttribute prop = Ret (Some sa))
       properties sensitives ->
     composeSource d
     = Ret (wireSource d accessRules
              ("kafka", "", "", None, "", "", "", "", "", None, "",
               bootstrapServers, schemaRegistryURL, sensitives, "")))
  /\ (forall before prop after sensitives e,
        properties = before ++ prop :: after ->
        Forall2 (fun prop sa => composeSensitiveAttribute prop = Ret (Some sa))
          before sensitives ->
        composeSensitiveAttribute prop = Fail e ->
        composeSource d = Fail e).
Proof.
  intros Hfirst Hrules Hproperty Hbootstrap Hregistry. revert Hfirst. first_block_of d.
  unfold composeSource, populated in *; rewrite Hrules; cbn [obind]; use_blocks.
  rewrite Hproperty, Hbootstrap, Hregistry. unfold maps. split.
  - intros sensitives Hall.
    rewrite (traverse_Forall2 _ _ sensitives); [done|].
    apply Forall2_fmap_l. eapply Forall2_impl; [exact Hall|].
    intros prop sa Hprop. simpl. by rewrite Hprop.
  - intros before prop after sensitives e -> Hbefore Hprop.
    rewrite fmap_app, fmap_cons.
    rewrite (traverse_app_Fail _ _ _ _ sensitives e); [done| |].
    + apply Forall2_fmap_l. eapply Forall2_impl; [exact Hbefore|].
      intros prop' sa Hprop'. simpl. by rewrite Hprop'.
    + simpl. by rewrite Hprop.
Qed.

End NestedBlocks.

Lemma composeSource_requires_credentials_witness :
  @composeSource sampleHelpers
    (mkResourceData ""
       (<["jdbc" := VList [VMap (<["schema" := VStr "public"]>
                                (<["url" := VStr "jdbc:postgresql://db/sales"]> ∅))]]> ∅))
  = Fail "Value is null".
Proof.
  apply (@composeSource_requires_credentials sampleHelpers _ "jdbc"
           (<["schema" := VStr "public"]>
            (<["url" := VStr "jdbc:postgresql://db/sales"]> ∅)) []).
  - reflexivity.
  - by left.
  - reflexivity.
  - reflexivity.
Defined.

Lemma composeSource_kafka_properties_witness :
  @composeSource sampleHelpers kafkaData
  = Ret (@wireSource sampleHelpers kafkaData []
           ("kafka", "", "", None, "", "", "", "", "", None, "",
            "broker:9092", "http://registry", [], "")).
Proof.
  apply (proj1 (@composeSource_kafka_properties sampleHelpers kafkaData _ [] []
                  "broker:9092" "http://registry"
                  eq_refl eq_refl eq_refl eq_refl eq_refl)).
  constructor.
Defined.

Lemma file_source_read_then_compose_witness :
  exists d' composed,
    @resourceSourceRead acceptAll sampleHelpers (backendWith parquetSource) (emptyData "13")
    = (d', Ret tt)
    /\ @composeSource sampleHelpers d' = Ret composed
    /\ Source.Type_ composed = "gcs"
    /\ Source.Path composed = "events/".
Proof.
  destruct (@file_source_read_then_compose acceptAll sampleHelpers
              (backendWith parquetSource) (emptyData "13") parquetSource
              {| FileFormat.Type_ := "parquet";
                 FileFormat.Sep := None;
                 FileFormat.QuoteAll := None;
                 FileFormat.IncludeHeader := None;
                 FileFormat.EmptyValue := None;
                 FileFormat.Compression := None;
                 FileFormat.DateFormat := None;
                 FileFormat.TimestampFormat := None;
                 FileFormat.IgnoreLeadingWhiteSpace := None;
                 FileFormat.IgnoreTrailingWhiteSpace := None;
                 FileFormat.LineSep := None |})
    as (d' & composed & Hread & Hcompose & _ & _ & Htype & Hpath & _).
  - reflexivity.
  - reflexivity.
  - repeat constructor.
  - reflexivity.
  - apply (bool_decide_unpack _). by vm_compute.
  - reflexivity.
  - discriminate.
  - exists d', composed. by repeat split.
Defined.
